(** * RF50-Klipper: filament cutter sensor and filament unload

    A shallow embedding of [extras/cutter_sensor.py] (class [CutterSensor])
    and [extras/unload_filament.py] (class [UnloadFilament]), and the
    properties of their guards, timers and sensor routing.

    Both classes run on Klipper's single-threaded reactor.  Every method is
    a function on a [World]: the attributes of the two objects, the wake
    times of their reactor timers, the callbacks waiting in the reactor and
    the chronological list of calls made to the collaborators (toolhead,
    heaters, gcode console, event bus).  What the collaborators answer
    (clock, homed axes, temperatures, sensor levels, print state) and which
    of their calls raise is an [Env], a function of the dispatch count and
    of the calls made so far, so every theorem quantified over [Env] holds
    for every behaviour of the machine.

    Conventions of the embedding:
    - Python floats are rationals; the properties depend on the control
      flow only.  [logging] calls are left out.
    - A call to the toolhead, the heaters, the gcode interpreter, the bed
      boundary, the bucket or pause_resume may raise.  Console output
      ([respond_info]), [send_event], the reactor's own calls, status
      queries and the lookup of objects every configuration has
      (gcode_move, heaters, idle_timeout) do not.
    - A method runs from start to end; callbacks that the reactor could
      run while it waits (for moves, for the temperature, for a completion)
      are not interleaved, and waiting for the completion of a registered
      callback is a direct call. *)

From Stdlib Require Import ZArith QArith String List Bool Lia Lqa Ascii.
Import ListNotations.

Local Open Scope string_scope.
Local Open Scope list_scope.
Local Open Scope Q_scope.

Notation "a ^^ b" := (String.append a b) (at level 35, right associativity).

(** ** Strings as the code uses them *)

(** The line break of the gcode scripts (["G90\nM400"]). *)
Definition nl : string := String (ascii_of_nat 10) EmptyString.

(** [str.lower()] on the ASCII range. *)
Definition lower_ascii (c : ascii) : ascii :=
  let n := nat_of_ascii c in
  if ((65 <=? n) && (n <=? 90))%nat then ascii_of_nat (n + 32) else c.

Fixpoint lower (s : string) : string :=
  match s with
  | EmptyString => EmptyString
  | String c r => String (lower_ascii c) (lower r)
  end.

(** [sub in s] on strings. *)
Fixpoint contains (sub s : string) : bool :=
  String.prefix sub s
  || match s with
     | EmptyString => false
     | String _ r => contains sub r
     end.

(** [a < b] on floats, as a boolean. *)
Definition Qltb (a b : Q) : bool := negb (Qle_bool b a).

(** ** The printer: collaborators, reactor, exceptions *)

Module Printer.

(** [toolhead.get_position()]: x, y, z, e. *)
Record Pos := mkPos { px : Q; py : Q; pz : Q; pe : Q }.

(** The four reactor timers registered by the two classes. *)
Inductive Timer :=
| unextrude_to_sensor_timer   (* CutterSensor.unextrude *)
| unextrude_timer             (* UnloadFilament.unextrude *)
| verify_flow_sensor_timer    (* UnloadFilament.verify_flow_sensor_state *)
| verify_switch_sensor_timer. (* UnloadFilament.verify_switch_sensor_state *)

(** The methods handed to [reactor.register_callback]. *)
Inductive Callback :=
| cb_cut (temp : Q) (return_last_pos off_heaters : bool)
| cb_unload_end
| cb_insert_event_handler
| cb_runout_event_handler.

Inductive Sensor := flow_sensor | switch_sensor.

(** A call made to a collaborator. *)
Inductive Action :=
| respond_info (msg : string)                 (* gcode.respond_info *)
| run_script_from_command (script : string)   (* gcode.run_script_from_command *)
| run_script (script : string)                (* gcode.run_script *)
| send_event (topic : string)                 (* printer.send_event *)
| wait_moves                                  (* toolhead.wait_moves *)
| toolhead_move (pos : Pos) (speed : Q)       (* toolhead.move *)
| manual_move (coord : list Q) (speed : Q)    (* toolhead.manual_move *)
| set_temperature (temp : Q) (wait : bool)    (* heaters.set_temperature *)
| reactor_pause (waketime : Q)                (* reactor.pause *)
| update_timer (t : Timer) (waketime : Q)     (* reactor.update_timer *)
| register_callback (cb : Callback)           (* reactor.register_callback *)
| set_custom_boundary                         (* bed_custom_bound *)
| restore_default_boundary
| bucket_move_to_bucket                       (* bucket.move_to_bucket *)
| send_pause_command                          (* pause_resume.send_pause_command *)
| set_sensor_enabled (s : Sensor) (v : Z)     (* runout_helper.sensor_enabled = v *)
| set_absolute_coord (b : bool).              (* gcode_move.absolute_coord = b *)

(** Python exceptions, by class. *)
Inductive Exn :=
| ExternalError (msg : string)        (* raised inside a collaborator *)
| CommandError (msg : string)         (* gcmd.error: bad or missing parameter *)
| CutterSensorError (msg : string)
| UnloadFilamentError (msg : string)
| TypeError (msg : string)
| AttributeError (msg : string)
| ZeroDivisionError (msg : string).

(** [str(e)], as the f-strings of the error messages use it. *)
Definition exn_str (e : Exn) : string :=
  match e with
  | ExternalError m | CommandError m | CutterSensorError m
  | UnloadFilamentError m | TypeError m | AttributeError m
  | ZeroDivisionError m => m
  end.

(** What the collaborators report when asked. *)
Record Readings := {
  monotonic : Q;                       (* reactor.monotonic() *)
  homed_axes : string;                 (* kinematics status "homed_axes" *)
  get_position : Pos;                  (* toolhead.get_position() *)
  extrude_factor : Q;                  (* gcode_move status "extrude_factor" *)
  heater_temp : Q;                     (* extruder heater get_temp()[0] *)
  is_shutdown : bool;                  (* printer.is_shutdown() *)
  idle_timeout_state : string;         (* idle_timeout status "state" *)
  print_stats_state : option string;   (* print_stats status "state", if loaded *)
  is_paused : bool;                    (* pause_resume status "is_paused" *)
  sd_is_active : bool;                 (* virtual_sdcard.is_active() *)
  load_started : bool;                 (* load_filament_object.load_started *)
  switch_filament_detected : bool;     (* filament_switch_sensor status *)
  flow_filament_detected : bool        (* filament_motion_sensor status *)
}.

(** The machine around the two classes.  [NOW] and [NEVER] are the reactor's
    constants; [readings] and [raises] depend on the number of reactor
    dispatches so far and on the calls made so far. *)
Record Env := {
  NOW : Q;
  NEVER : Q;
  readings : nat -> list Action -> Readings;
  raises : nat -> list Action -> Action -> option Exn
}.

(** Attributes of a [CutterSensor]. *)
Record CutterSensorState := {
  filament_present : bool;
  sensor_enabled : Z;
  min_event_systime : Q;
  is_cutting : bool;
  prev_pos : option Pos
}.

(** Attributes of an [UnloadFilament]; [unload_started] starts as [None]. *)
Record UnloadFilamentState := {
  unload_started : option bool;
  unextrude_count : Z
}.

(** The reactor's timer table: the wake time of each timer. *)
Record Timers := {
  wake_unextrude_to_sensor : Q;
  wake_unextrude : Q;
  wake_verify_flow_sensor : Q;
  wake_verify_switch_sensor : Q
}.

Definition waketime (ts : Timers) (t : Timer) : Q :=
  match t with
  | unextrude_to_sensor_timer => wake_unextrude_to_sensor ts
  | unextrude_timer => wake_unextrude ts
  | verify_flow_sensor_timer => wake_verify_flow_sensor ts
  | verify_switch_sensor_timer => wake_verify_switch_sensor ts
  end.

Definition set_waketime (t : Timer) (q : Q) (ts : Timers) : Timers :=
  match t with
  | unextrude_to_sensor_timer =>
      {| wake_unextrude_to_sensor := q;
         wake_unextrude := wake_unextrude ts;
         wake_verify_flow_sensor := wake_verify_flow_sensor ts;
         wake_verify_switch_sensor := wake_verify_switch_sensor ts |}
  | unextrude_timer =>
      {| wake_unextrude_to_sensor := wake_unextrude_to_sensor ts;
         wake_unextrude := q;
         wake_verify_flow_sensor := wake_verify_flow_sensor ts;
         wake_verify_switch_sensor := wake_verify_switch_sensor ts |}
  | verify_flow_sensor_timer =>
      {| wake_unextrude_to_sensor := wake_unextrude_to_sensor ts;
         wake_unextrude := wake_unextrude ts;
         wake_verify_flow_sensor := q;
         wake_verify_switch_sensor := wake_verify_switch_sensor ts |}
  | verify_switch_sensor_timer =>
      {| wake_unextrude_to_sensor := wake_unextrude_to_sensor ts;
         wake_unextrude := wake_unextrude ts;
         wake_verify_flow_sensor := wake_verify_flow_sensor ts;
         wake_verify_switch_sensor := q |}
  end.

(** Everything that changes while the printer runs. *)
Record World := {
  cutter : CutterSensorState;
  unload : UnloadFilamentState;
  timers : Timers;
  callbacks : list Callback;  (* registered with the reactor, not yet run *)
  epoch : nat;                (* reactor dispatches so far *)
  trace : list Action         (* calls made so far, oldest first *)
}.

Definition with_cutter (c : CutterSensorState) (w : World) : World :=
  {| cutter := c; unload := unload w; timers := timers w;
     callbacks := callbacks w; epoch := epoch w; trace := trace w |}.

Definition with_unload (u : UnloadFilamentState) (w : World) : World :=
  {| cutter := cutter w; unload := u; timers := timers w;
     callbacks := callbacks w; epoch := epoch w; trace := trace w |}.

Definition with_timers (ts : Timers) (w : World) : World :=
  {| cutter := cutter w; unload := unload w; timers := ts;
     callbacks := callbacks w; epoch := epoch w; trace := trace w |}.

Definition with_callbacks (cbs : list Callback) (w : World) : World :=
  {| cutter := cutter w; unload := unload w; timers := timers w;
     callbacks := cbs; epoch := epoch w; trace := trace w |}.

Definition with_epoch (n : nat) (w : World) : World :=
  {| cutter := cutter w; unload := unload w; timers := timers w;
     callbacks := callbacks w; epoch := n; trace := trace w |}.

Definition log (a : Action) (w : World) : World :=
  {| cutter := cutter w; unload := unload w; timers := timers w;
     callbacks := callbacks w; epoch := epoch w; trace := trace w ++ [a] |}.

(** Attribute assignments. *)
Definition set_filament_present (b : bool) (c : CutterSensorState) :=
  {| filament_present := b; sensor_enabled := sensor_enabled c;
     min_event_systime := min_event_systime c; is_cutting := is_cutting c;
     prev_pos := prev_pos c |}.

Definition set_sensor_enabled_attr (v : Z) (c : CutterSensorState) :=
  {| filament_present := filament_present c; sensor_enabled := v;
     min_event_systime := min_event_systime c; is_cutting := is_cutting c;
     prev_pos := prev_pos c |}.

Definition set_min_event_systime (t : Q) (c : CutterSensorState) :=
  {| filament_present := filament_present c; sensor_enabled := sensor_enabled c;
     min_event_systime := t; is_cutting := is_cutting c;
     prev_pos := prev_pos c |}.

Definition set_is_cutting (b : bool) (c : CutterSensorState) :=
  {| filament_present := filament_present c; sensor_enabled := sensor_enabled c;
     min_event_systime := min_event_systime c; is_cutting := b;
     prev_pos := prev_pos c |}.

Definition set_prev_pos (p : option Pos) (c : CutterSensorState) :=
  {| filament_present := filament_present c; sensor_enabled := sensor_enabled c;
     min_event_systime := min_event_systime c; is_cutting := is_cutting c;
     prev_pos := p |}.

Definition set_unload_started (b : option bool) (u : UnloadFilamentState) :=
  {| unload_started := b; unextrude_count := unextrude_count u |}.

Definition set_unextrude_count (n : Z) (u : UnloadFilamentState) :=
  {| unload_started := unload_started u; unextrude_count := n |}.

(** *** The monad of the methods

    A method maps a world to an outcome and the world it leaves behind:
    it returns, it raises, or (the temperature wait only) it is still
    polling when the fuel of the model is spent. *)
Inductive Result (A : Type) :=
| Ok (a : A)
| Raise (e : Exn)
| Polling.

Arguments Ok {A} a.
Arguments Raise {A} e.
Arguments Polling {A}.

Definition M (A : Type) : Type := World -> Result A * World.

Definition ret {A} (a : A) : M A := fun w => (Ok a, w).

Definition bind {A B} (m : M A) (k : A -> M B) : M B :=
  fun w =>
    match m w with
    | (Ok a, w') => k a w'
    | (Raise e, w') => (Raise e, w')
    | (Polling, w') => (Polling, w')
    end.

Definition raise {A} (e : Exn) : M A := fun w => (Raise e, w).

(** [try: m  except Exception as e: h e]. *)
Definition try_except {A} (m : M A) (h : Exn -> M A) : M A :=
  fun w =>
    match m w with
    | (Raise e, w') => h e w'
    | r => r
    end.

Definition get : M World := fun w => (Ok w, w).
Definition modify (f : World -> World) : M unit := fun w => (Ok tt, f w).
Definition when (b : bool) (m : M unit) : M unit := if b then m else ret tt.

End Printer.

Import Printer.

Notation "x <- m ;; k" := (bind m (fun x => k))
  (at level 61, m at next level, right associativity).
Notation "m ;; k" := (bind m (fun _ => k))
  (at level 61, right associativity).

Module Calls.
Section WithEnv.
Variable env : Env.

(** What the machine reports right now. *)
Definition read : M Readings :=
  fun w => (Ok (readings env (epoch w) (trace w)), w).

(** A call that cannot raise. *)
Definition emit (a : Action) : M unit := modify (log a).

(** A call into a collaborator: it is made, and raises if the machine
    says so. *)
Definition call (a : Action) : M unit :=
  fun w =>
    match raises env (epoch w) (trace w) a with
    | Some e => (Raise e, log a w)
    | None => (Ok tt, log a w)
    end.

(** [reactor.update_timer(t, waketime)]. *)
Definition reactor_update_timer (t : Timer) (q : Q) : M unit :=
  modify (fun w => log (update_timer t q) (with_timers (set_waketime t q (timers w)) w)).

(** [reactor.register_callback(cb)], not waited for. *)
Definition reactor_register_callback (cb : Callback) : M unit :=
  modify (fun w => log (register_callback cb) (with_callbacks (callbacks w ++ [cb]) w)).

End WithEnv.
End Calls.

(** A parsed gcode command: what [gcmd.get] yields for each parameter the
    two modules read, a value or the [gcmd.error] it raises (missing without
    default, outside [minval]/[maxval]). *)
Record GCodeCommand := {
  TEMPERATURE : Q + Exn;      (* parser=float, with default and bounds *)
  TOOLHEAD : string + Exn;    (* no default *)
  ENABLE : Z + Exn;           (* get_int, default 1 *)
  MOVE_TO_LAST_POS : bool + Exn;
  TURN_OFF_HEATER : bool + Exn
}.

Definition gcmd_get {A} (p : A + Exn) : M A :=
  match p with
  | inl v => ret v
  | inr e => raise e
  end.

(** Truth value of an attribute that starts as [None]. *)
Definition truthy (o : option bool) : bool :=
  match o with
  | Some b => b
  | None => false
  end.

(** ** unload_filament.py *)

Module UnloadFilament.

(** The object after [__init__], [handle_connect] and [handle_ready]: the
    options read from the configuration and which collaborators were found
    ([true] for an attribute that is not [None]). *)
Record Config := {
  toolhead : bool;
  idex : bool;
  custom_boundary_object : bool;
  bucket_object : bool;
  cutter_object : bool;
  filament_flow_sensor_object : bool;
  filament_switch_sensor_object : bool;
  unload_speed : Q;
  timeout : option Z;
  (* optional printer objects looked up by name in [conditional_pause] *)
  has_pause_resume : bool;
  has_virtual_sdcard : bool;
  has_gcode_macro_PAUSE : bool
}.

Section Methods.
Variable env : Env.
Variable self : Config.
(** [self.cutter_object.cut], bound to the cutter found at [handle_ready]. *)
Variable cutter_cut : bool -> bool -> Q -> M unit.

Local Abbreviation read := (Calls.read env).
Local Abbreviation call := (Calls.call env).
Local Abbreviation emit := Calls.emit.

(** A method call on [self.toolhead]; on [None] Python raises. *)
Definition on_toolhead (a : Action) : M unit :=
  if toolhead self then call a
  else raise (AttributeError "'NoneType' object has no attribute").


(** [UnloadFilamentError(message)] with the required [errors] argument
    left out: the constructor call itself raises [TypeError]. *)
Definition UnloadFilamentError_missing_errors : Exn :=
  TypeError "__init__() missing 1 required positional argument: 'errors'".

Definition get_unload_started : M bool :=
  w <- get ;; ret (truthy (unload_started (unload w))).

Definition assign_unload_started (b : bool) : M unit :=
  modify (fun w => with_unload (set_unload_started (Some b) (unload w)) w).

Definition assign_unextrude_count (n : Z) : M unit :=
  modify (fun w => with_unload (set_unextrude_count n (unload w)) w).

(** React to the cutter's "no filament" event. *)
Definition handle_cutter_fnp : M unit :=
  started <- get_unload_started ;;
  when started
    (emit (respond_info "Pulling filament out of the printer wait....") ;;
     Calls.reactor_update_timer unextrude_timer (NOW env)).

(** Timer callback; the result is the next wake time. *)
Definition verify_switch_sensor_state (eventtime : Q) : M Q :=
  started <- get_unload_started ;;
  if negb started then ret (NEVER env)
  else if negb (filament_switch_sensor_object self)
  then raise (AttributeError "'NoneType' object has no attribute 'get_status'")
  else
    r <- read ;;
    if switch_filament_detected r then ret (eventtime + 1.250)
    else
      Calls.reactor_update_timer unextrude_timer (NEVER env) ;;
      Calls.reactor_register_callback cb_unload_end ;;
      ret (NEVER env).

Definition verify_flow_sensor_state (eventtime : Q) : M Q :=
  started <- get_unload_started ;;
  if negb started then ret (NEVER env)
  else if negb (filament_flow_sensor_object self) then ret (NEVER env)
  else
    r <- read ;;
    if flow_filament_detected r then ret (eventtime + 1.0)
    else ret (eventtime + 1.250).

Definition heat_and_wait (temp : Q) (wait : bool) : M unit :=
  on_toolhead (set_temperature temp wait).

Definition save_state : M bool :=
  when (idex self)
    (call (run_script_from_command
             ("SAVE_DUAL_CARRIAGE_STATE NAME=unload_carriage_state" ^^ nl ^^ "M400"))) ;;
  call (run_script_from_command ("SAVE_GCODE_STATE NAME=_UNLOAD_STATE" ^^ nl ^^ "M400")) ;;
  ret true.

Definition restore_state : M bool :=
  call (run_script_from_command
          ("RESTORE_GCODE_STATE NAME=_UNLOAD_STATE MOVE=1 MOVE_SPEED=100" ^^ nl ^^ "M400")) ;;
  when (idex self)
    (call (run_script_from_command
             ("RESTORE_DUAL_CARRIAGE_STATE NAME=unload_carriage_state MOVE=0" ^^ nl ^^ "M400"))) ;;
  ret true.

Definition unload_end : M bool :=
  started <- get_unload_started ;;
  if negb started then ret false
  else
    assign_unload_started false ;;
    emit (send_event "unload_filament:end") ;;
    on_toolhead wait_moves ;;
    call (run_script_from_command ("G91" ^^ nl ^^ "M400")) ;;
    call (run_script_from_command ("M83" ^^ nl ^^ "M400")) ;;
    call (run_script_from_command ("G92 E0.0" ^^ nl ^^ "M400")) ;;
    call (run_script_from_command ("M82" ^^ nl ^^ "M400")) ;;
    on_toolhead wait_moves ;;
    emit (respond_info "Cooling down extruder") ;;
    restore_state ;;
    when (custom_boundary_object self) (call set_custom_boundary) ;;
    heat_and_wait 0 false ;;
    when (idex self)
      (emit (respond_info "Parking toolhead 0") ;;
       call (run_script_from_command ("T0 PARK" ^^ nl ^^ "M400"))) ;;
    on_toolhead wait_moves ;;
    emit (respond_info "[UNLOAD FILAMENT] Finished.") ;;
    ret true.

(** The result is [None] for the bare [return], [Some true] otherwise. *)
Definition move_extruder_mm (distance speed : Q) (wait : bool) : M (option bool) :=
  if negb (toolhead self) then ret None
  else
    try_except
      (r <- read ;;
       let prev_pos := get_position r in
       emit (set_absolute_coord false) ;;
       r' <- read ;;
       let v := distance * extrude_factor r' in
       let new_distance := v + pe prev_pos in
       call (manual_move [px prev_pos; py prev_pos; pz prev_pos; new_distance]
                         (speed * 60)) ;;
       when wait (call wait_moves))
      (fun _ => raise UnloadFilamentError_missing_errors) ;;
    ret (Some true).

(** Timer callback: one retraction pulse, or completion once the pulse
    count has passed [timeout].  The inner block yields [Some t] where the
    source returns [t] early, [None] where it falls through to the pulse. *)
Definition unextrude (eventtime : Q) : M Q :=
  started <- get_unload_started ;;
  if negb started then ret (NEVER env)
  else
    try_except
      (early <-
         match timeout self with
         | Some limit =>
             w <- get ;;
             if (limit <? unextrude_count (unload w))%Z then
               Calls.reactor_update_timer verify_switch_sensor_timer (NEVER env) ;;
               emit (register_callback cb_unload_end) ;;
               unload_end ;;   (* completion.wait() *)
               ret (Some (NEVER env))
             else
               assign_unextrude_count (unextrude_count (unload w) + 1)%Z ;;
               ret None
         | None => ret None
         end ;;
       match early with
       | Some t => ret t
       | None =>
           move_extruder_mm (-10) (unload_speed self) false ;;
           if Qeq_bool (unload_speed self) 0
           then raise (ZeroDivisionError "float division by zero")
           else ret (eventtime + 10 / unload_speed self)
       end)
      (fun e => raise (UnloadFilamentError
                         ("[UNLOAD FILAMENT] Error while unloading: " ^^ exn_str e))).

Definition disable_sensors : M bool :=
  when (filament_flow_sensor_object self) (emit (set_sensor_enabled flow_sensor 0)) ;;
  when (filament_switch_sensor_object self)
    (emit (set_sensor_enabled switch_sensor 0) ;;
     emit (respond_info "filament switch sensor is not enabled")) ;;
  ret true.

Definition enable_sensors : M bool :=
  when (filament_flow_sensor_object self) (emit (set_sensor_enabled flow_sensor 1)) ;;
  when (filament_switch_sensor_object self)
    (emit (respond_info "filament switch sensor is now enabled") ;;
     emit (set_sensor_enabled switch_sensor 1)) ;;
  ret true.

Definition home_needed : M unit :=
  if negb (toolhead self) then ret tt
  else
    try_except
      (r <- read ;;
       if contains "xyz" (lower (homed_axes r)) then ret tt
       else call (run_script_from_command "G28"))
      (fun _ => raise UnloadFilamentError_missing_errors).


Definition cmd_UNLOAD_FILAMENT (gcmd : GCodeCommand) : M unit :=
  temp <- gcmd_get (TEMPERATURE gcmd) ;;
  if negb (toolhead self) then ret tt
  else
    try_except
      (started <- get_unload_started ;;
       if started then emit (respond_info "Printer already unloading filament")
       else
         home_needed ;;
         save_state ;;
         disable_sensors ;;
         when (idex self)
           (th <- gcmd_get (TOOLHEAD gcmd) ;;
            if String.eqb th "Load_T0"
            then call (run_script_from_command "T0 UNLOAD")
            else call (run_script_from_command "T1 UNLOAD")) ;;
         assign_unload_started true ;;
         emit (send_event "unload_filament:start") ;;
         emit (respond_info "[UNLOAD FILAMENT] Start") ;;
         call (run_script_from_command ("G91" ^^ nl ^^ "M400")) ;;
         call (run_script_from_command ("M83" ^^ nl ^^ "M400")) ;;
         when (match timeout self with Some _ => true | None => false end)
           (assign_unextrude_count 0) ;;
         heat_and_wait temp false ;;
         when (bucket_object self) (call bucket_move_to_bucket) ;;
         heat_and_wait temp true ;;
         on_toolhead wait_moves ;;
         when (cutter_object self)
           (emit (register_callback (cb_cut temp false false)) ;;
            cutter_cut false false temp) ;;   (* completion.wait() *)
         when (negb (cutter_object self)
               && match timeout self with Some _ => true | None => false end)
           (Calls.reactor_update_timer unextrude_timer (NOW env) ;;
            when (filament_flow_sensor_object self)
              (Calls.reactor_update_timer verify_flow_sensor_timer (NOW env))) ;;
         when (filament_switch_sensor_object self)
           (emit (respond_info
                    "[UNLOAD FILAMENT] Starting filament switch sensor unload verification in 10 seconds") ;;
            Calls.reactor_update_timer verify_switch_sensor_timer (NOW env + 5.0)))
      (fun _ => raise UnloadFilamentError_missing_errors).

End Methods.
End UnloadFilament.

(** ** cutter_sensor.py *)

Module CutterSensor.

(** The object after [__init__], [handle_connect] and [handle_ready].  A
    gcode template is kept as the text it renders to. *)
Record Config := {
  toolhead : bool;
  custom_boundary_object : bool;
  load_filament_object : bool;
  unload_filament_object : bool;
  extrude_length_mm : Q;
  retract_length_mm : Q;
  extrude_speed : Q;
  travel_speed : Q;
  cut_speed : Q;
  cutter_position_x : Q;
  cutter_position_y : Q;
  pre_cutter_position_x : Q;
  pre_cutter_position_y : Q;
  bucked_position_xy : option (Q * Q);
  runout_gcode : option string;
  insert_gcode : option string;
  event_delay : Q;
  pause_delay : Q;
  runout_pause : bool;
  has_pause_resume : bool
}.

(** [get_status]. *)
Record Status := { filament_detect : bool; enabled : bool }.

Section Methods.
Variable env : Env.
Variable self : Config.
(** Whether an [UnloadFilament] subscribed [handle_cutter_fnp] to this
    sensor's "cutter_sensor:no_filament" (it does when it found the
    cutter at [handle_ready]); no other handler lives in these modules. *)
Variable unload_subscribed : bool.
(** Polls the temperature wait may take before the model gives up. *)
Variable fuel : nat.

Local Abbreviation read := (Calls.read env).
Local Abbreviation call := (Calls.call env).
Local Abbreviation emit := Calls.emit.

Definition on_toolhead (a : Action) : M unit :=
  if toolhead self then call a
  else raise (AttributeError "'NoneType' object has no attribute").

Definition assign_is_cutting (b : bool) : M unit :=
  modify (fun w => with_cutter (set_is_cutting b (cutter w)) w).

Definition assign_min_event_systime (t : Q) : M unit :=
  modify (fun w => with_cutter (set_min_event_systime t (cutter w)) w).

(** [printer.send_event(topic)]: the handlers run before it returns. *)
Definition printer_send_event (topic : string) : M unit :=
  emit (send_event topic) ;;
  when (unload_subscribed && String.eqb topic "cutter_sensor:no_filament")
    (UnloadFilament.handle_cutter_fnp env).

Definition cmd_QUERY_FILAMENT_SENSOR (gcmd : GCodeCommand) : M unit :=
  w <- get ;;
  if filament_present (cutter w)
  then emit (respond_info "[CUTTER] Filament Detected")
  else emit (respond_info "[CUTTER] No filament detected").

Definition cmd_SET_FILAMENT_SENSOR (gcmd : GCodeCommand) : M unit :=
  v <- gcmd_get (ENABLE gcmd) ;;
  modify (fun w => with_cutter (set_sensor_enabled_attr v (cutter w)) w).

Definition cmd_CUT (gcmd : GCodeCommand) : M unit :=
  return_last_position <- gcmd_get (MOVE_TO_LAST_POS gcmd) ;;
  turn_off_heaters <- gcmd_get (TURN_OFF_HEATER gcmd) ;;
  temperature <- gcmd_get (TEMPERATURE gcmd) ;;
  Calls.reactor_register_callback (cb_cut temperature return_last_position turn_off_heaters).

Definition move_extruder_mm (distance speed : Q) (wait : bool) : M unit :=
  if negb (toolhead self) then ret tt
  else
    try_except
      (r <- read ;;
       let prev_pos := get_position r in
       let v := distance * extrude_factor r in
       let new_distance := v + pe prev_pos in
       call (toolhead_move (mkPos (px prev_pos) (py prev_pos) (pz prev_pos) new_distance)
                           speed) ;;
       when wait (call wait_moves))
      (fun e => raise (CutterSensorError
                         ("[CUTTER] Unable to move extruder error: " ^^ exn_str e ^^ "."))).

Definition home_needed : M unit :=
  if negb (toolhead self)
  then raise (CutterSensorError "Toolhead object is missing, called on home_needed.")
  else
    try_except
      (r <- read ;;
       if contains "xyz" (lower (homed_axes r))
       then emit (respond_info "Printer already homed.")
       else
         emit (respond_info "Homing.") ;;
         call (run_script_from_command ("G28" ^^ nl ^^ "M400")))
      (fun e => raise (CutterSensorError ("Unable to home: " ^^ exn_str e))).

(** The [while not self.printer.is_shutdown() and wait] loop, for
    [wait = True]; one unit of fuel per poll. *)
Fixpoint wait_for_temperature (polls : nat) (temp eventtime : Q) : M unit :=
  r <- read ;;
  if is_shutdown r then ret tt
  else
    match polls with
    | O => fun w => (Polling, w)
    | S polls' =>
        emit (respond_info "Waiting for temperature to stabilize.") ;;
        r' <- read ;;
        if Qle_bool (temp - 5) (heater_temp r') && Qle_bool (heater_temp r') (temp + 5)
        then ret tt
        else
          emit (reactor_pause (eventtime + 1.0)) ;;
          r'' <- read ;;
          wait_for_temperature polls' temp (monotonic r'')
    end.

Definition heat_and_wait (temp : Q) (wait : bool) : M unit :=
  try_except
    (r <- read ;;
     on_toolhead (set_temperature temp false) ;;
     if wait then wait_for_temperature fuel temp (monotonic r) else ret tt)
    (fun e => raise (CutterSensorError ("Error heating extruder: " ^^ exn_str e))).

Definition cut_move : M unit :=
  try_except
    (on_toolhead (manual_move [cutter_position_x self; cutter_position_y self]
                              (travel_speed self)) ;;
     on_toolhead (manual_move [pre_cutter_position_x self; pre_cutter_position_y self]
                              (cut_speed self)) ;;
     on_toolhead wait_moves)
    (fun e => raise (CutterSensorError
                       ("Error performing performing cut move: " ^^ exn_str e ^^ "."))).

Definition move_to_cutter_pos : M unit :=
  try_except
    (r <- read ;;
     if negb (contains "xyz" (homed_axes r)) then ret tt
     else
       on_toolhead (manual_move [pre_cutter_position_x self; pre_cutter_position_y self]
                                (travel_speed self)) ;;
       on_toolhead wait_moves)
    (fun e => raise (CutterSensorError
                       ("Error moving to cutter position: " ^^ exn_str e ^^ "."))).

Definition move_to_bucket (split : bool) : M unit :=
  try_except
    (when (custom_boundary_object self)
       (emit (respond_info "Restoring original printer Boundaries.") ;;
        call restore_default_boundary) ;;
     match bucked_position_xy self with
     | None => raise (AttributeError "'CutterSensor' object has no attribute 'bucked_position_x'")
     | Some (bucked_position_x, bucked_position_y) =>
         (if negb split then
            on_toolhead (manual_move [bucked_position_x; bucked_position_y] (travel_speed self))
          else
            on_toolhead (manual_move [bucked_position_x] (travel_speed self)) ;;
            on_toolhead wait_moves ;;
            on_toolhead (manual_move [bucked_position_y] (travel_speed self))) ;;
         on_toolhead wait_moves
     end)
    (fun e => raise (CutterSensorError
                       ("Error moving to bucket position: " ^^ exn_str e ^^ "."))).

Definition move_back : M unit :=
  try_except
    (w <- get ;;
     match prev_pos (cutter w) with
     | None => ret tt
     | Some p =>
         on_toolhead (manual_move [px p; py p; pz p] (travel_speed self)) ;;
         on_toolhead wait_moves
     end)
    (fun e => raise (CutterSensorError
                       ("Error moving to the original position: " ^^ exn_str e ^^ "."))).

(** Perform cut. *)
Definition cut (return_last_pos off_heaters : bool) (temp : Q) : M unit :=
  w <- get ;;
  if is_cutting (cutter w) then emit (respond_info "[CUTTER] Already cutting filament")
  else
    assign_is_cutting true ;;
    home_needed ;;
    on_toolhead wait_moves ;;
    r <- read ;;
    if negb (contains "xyz" (homed_axes r)) then
      emit (respond_info "[CUTTER] Printer needs to be homed for filament cutting.")
    else
      modify (fun w => with_cutter (set_prev_pos (Some (get_position r)) (cutter w)) w) ;;
      call (run_script_from_command ("G90" ^^ nl ^^ "M400")) ;;
      call (run_script_from_command ("M83" ^^ nl ^^ "M400")) ;;
      call (run_script_from_command ("G92 E0.0" ^^ nl ^^ "M400")) ;;
      emit (respond_info "[CUTTER] Heating extruder.") ;;
      heat_and_wait temp true ;;
      when (match bucked_position_xy self with Some _ => true | None => false end)
        (move_to_bucket false) ;;
      move_extruder_mm 10 (extrude_speed self) false ;;
      move_extruder_mm (retract_length_mm self) (extrude_speed self) false ;;
      move_to_cutter_pos ;;
      cut_move ;;
      when (match bucked_position_xy self with Some _ => true | None => false end)
        (move_to_bucket false) ;;
      move_extruder_mm (-2.0) (extrude_speed self) false ;;
      move_extruder_mm (extrude_length_mm self + 10) (extrude_speed self) false ;;
      Calls.reactor_update_timer unextrude_to_sensor_timer (NOW env) ;;
      w <- get ;;
      when (match prev_pos (cutter w) with Some _ => true | None => false end
            && return_last_pos)
        (move_back ;;
         on_toolhead wait_moves ;;
         when (custom_boundary_object self) (call set_custom_boundary)) ;;
      when off_heaters (heat_and_wait 0 false).

(** Timer callback of [unextrude_to_sensor_timer]. *)
Definition unextrude (eventtime : Q) : M Q :=
  w <- get ;;
  if negb (is_cutting (cutter w)) then ret (NEVER env)
  else
    try_except
      (move_extruder_mm (-10) (extrude_speed self) false ;;
       if Qeq_bool (extrude_speed self) 0
       then raise (ZeroDivisionError "float division by zero")
       else ret (eventtime + 10 / extrude_speed self))
      (fun e => raise (CutterSensorError ("[CUTTER] Error Unextruding: " ^^ exn_str e))).

(** Callback for the change state: [state] is the new level of the pin;
    the [eventtime] argument is overwritten before it is read. *)
Definition cutter_sensor_callback (state : bool) : M unit :=
  w <- get ;;
  if Bool.eqb state (filament_present (cutter w)) then ret tt
  else
    modify (fun w => with_cutter (set_filament_present state (cutter w)) w) ;;
    r <- read ;;
    let eventtime := monotonic r in
    w <- get ;;
    if Qltb eventtime (min_event_systime (cutter w)) then ret tt
    else
      let is_printing_print_stats :=
        option_map (fun s => String.eqb s "Printing") (print_stats_state r) in
      let is_printing_idle_timeout := String.eqb (idle_timeout_state r) "Printing" in
      (if (load_filament_object self && load_started r)
          || (unload_filament_object self && truthy (unload_started (unload w)))
       then
         if state then printer_send_event "cutter_sensor:filament_present"
         else
           when (is_cutting (cutter w))
             (Calls.reactor_update_timer unextrude_to_sensor_timer (NEVER env) ;;
              emit (respond_info "[CUTTER] Cut done.") ;;
              assign_is_cutting false) ;;
           printer_send_event "cutter_sensor:no_filament"
       else if state then
         when (negb is_printing_idle_timeout
               && negb (truthy is_printing_print_stats)
               && match insert_gcode self with Some _ => true | None => false end)
           (printer_send_event "cutter_sensor:filament_present" ;;
            assign_min_event_systime (NEVER env) ;;
            Calls.reactor_register_callback cb_insert_event_handler)
       else if negb is_printing_idle_timeout
               && negb (truthy is_printing_print_stats)
               && match runout_gcode self with Some _ => true | None => false end
       then
         when (is_cutting (cutter w))
           (Calls.reactor_update_timer unextrude_to_sensor_timer (NEVER env) ;;
            assign_is_cutting false) ;;
         printer_send_event "cutter_sensor:no_filament" ;;
         assign_min_event_systime (NEVER env) ;;
         Calls.reactor_register_callback cb_runout_event_handler
       else if is_printing_idle_timeout
               && truthy is_printing_print_stats
               && match runout_gcode self with Some _ => true | None => false end
       then
         printer_send_event "cutter_sensor:no_filament" ;;
         assign_min_event_systime (NEVER env) ;;
         Calls.reactor_register_callback cb_runout_event_handler
       else ret tt) ;;
      call (run_script_from_command ("G90" ^^ nl ^^ "M400")) ;;
      call (run_script_from_command ("M83" ^^ nl ^^ "M400")) ;;
      call (run_script_from_command ("G92 E0.0" ^^ nl ^^ "M400")).

(** Runs a macro the way klipper's filament_switch_sensor does: a failure
    is swallowed, and the quiet period restarts either way. *)
Definition _exec_gcode (prefix : string) (template : option string) : M unit :=
  try_except
    (match template with
     | Some text => call (run_script (prefix ^^ text ^^ nl ^^ "M400"))
     | None => raise (AttributeError "'NoneType' object has no attribute 'render'")
     end)
    (fun _ => ret tt) ;;
  r <- read ;;
  assign_min_event_systime (monotonic r + event_delay self).

Definition _insert_event_handler (eventtime : Q) : M unit :=
  _exec_gcode "" (insert_gcode self).

Definition _runout_event_handler (eventtime : Q) : M unit :=
  pause_prefix <-
    (if runout_pause self then
       (if has_pause_resume self then ret tt
        else raise (ExternalError "Unknown config object 'pause_resume'")) ;;
       call send_pause_command ;;
       emit (reactor_pause (eventtime + pause_delay self)) ;;
       ret ("PAUSE" ^^ nl)
     else ret "") ;;
  _exec_gcode pause_prefix (runout_gcode self).

(** The attributes [__init__] gives a new sensor: no filament seen yet,
    enabled, every transition ignored until klippy is ready.  [prev_pos] is
    not assigned before [cut] does it. *)
Definition __init__ : CutterSensorState :=
  {| filament_present := false;
     sensor_enabled := 1;
     min_event_systime := NEVER env;
     is_cutting := false;
     prev_pos := None |}.

(** [handle_ready]: the quiet period of the start-up, then the three
    objects the sensor works with; [lookup_object] raises for one that is
    not configured. *)
Definition handle_ready : M unit :=
  r <- read ;;
  assign_min_event_systime (monotonic r + 2.0) ;;
  (if custom_boundary_object self then ret tt
   else raise (ExternalError "Unknown config object 'bed_custom_bound'")) ;;
  (if load_filament_object self then ret tt
   else raise (ExternalError "Unknown config object 'load_filament load_toolhead'")) ;;
  (if unload_filament_object self then ret tt
   else raise (ExternalError "Unknown config object 'unload_filament'")).

Definition get_status (w : World) : Status :=
  {| filament_detect := filament_present (cutter w);
     enabled := negb (sensor_enabled (cutter w) =? 0)%Z |}.

End Methods.
End CutterSensor.

(** ** The two objects on one reactor *)

Module Klippy.

(** What the reactor can run next. *)
Inductive Event :=
| button (state : bool)                       (* the cutter sensor pin changed level *)
| timer (t : Timer)                           (* a timer is due *)
| callback                                    (* the oldest registered callback *)
| UNLOAD_FILAMENT (gcmd : GCodeCommand)
| CUT (gcmd : GCodeCommand)
| SET_FILAMENT_SENSOR (gcmd : GCodeCommand)
| QUERY_FILAMENT_SENSOR (gcmd : GCodeCommand).

Section Machine.
Variable env : Env.
Variable cutter_sensor : CutterSensor.Config.
Variable unload_filament : UnloadFilament.Config.
Variable fuel : nat.

Definition cut : bool -> bool -> Q -> M unit :=
  CutterSensor.cut env cutter_sensor fuel.

Definition cutter_sensor_callback : bool -> M unit :=
  CutterSensor.cutter_sensor_callback env cutter_sensor
    (UnloadFilament.cutter_object unload_filament).

Definition cmd_UNLOAD_FILAMENT : GCodeCommand -> M unit :=
  UnloadFilament.cmd_UNLOAD_FILAMENT env unload_filament cut.

Definition unload_end : M bool := UnloadFilament.unload_end env unload_filament.

Definition unextrude : Q -> M Q := UnloadFilament.unextrude env unload_filament.

(** The method registered for each timer. *)
Definition timer_callback (t : Timer) (eventtime : Q) : M Q :=
  match t with
  | unextrude_to_sensor_timer => CutterSensor.unextrude env cutter_sensor eventtime
  | unextrude_timer => unextrude eventtime
  | verify_flow_sensor_timer =>
      UnloadFilament.verify_flow_sensor_state env unload_filament eventtime
  | verify_switch_sensor_timer =>
      UnloadFilament.verify_switch_sensor_state env unload_filament eventtime
  end.

Definition run_callback (cb : Callback) (eventtime : Q) : M unit :=
  match cb with
  | cb_cut temp return_last_pos off_heaters => cut return_last_pos off_heaters temp
  | cb_unload_end => unload_end ;; ret tt
  | cb_insert_event_handler =>
      CutterSensor._insert_event_handler env cutter_sensor eventtime
  | cb_runout_event_handler =>
      CutterSensor._runout_event_handler env cutter_sensor eventtime
  end.

(** Modelled from the spec: a timer whose fire time was reset to "never"
    is cancelled; it is armed when its wake time lies before [NEVER]. *)
Definition armed (t : Timer) (w : World) : bool :=
  Qltb (waketime (timers w) t) (NEVER env).

(** The reactor moves on to its next dispatch. *)
Definition tick (w : World) : World := with_epoch (S (epoch w)) w.

(** Modelled from the spec: the reactor (TimerService) is not among the
    source files.  It is a single-threaded cooperative scheduler; a timer
    callback returns its next fire time or "never", and a timer is
    cancelled by resetting its fire time to "never".  A due timer is
    parked at [NEVER] while its callback runs and then takes the wake time
    the callback returns; a callback registered with [register_callback]
    runs once.  The result is [None] when the event cannot occur: the
    timer is not armed, or no callback is waiting. *)
Definition dispatch (e : Event) (w : World) : option (Result unit * World) :=
  match e with
  | button state => Some (cutter_sensor_callback state (tick w))
  | timer t =>
      if armed t w then
        let w0 := with_timers (set_waketime t (NEVER env) (timers w)) (tick w) in
        let eventtime := monotonic (readings env (epoch w0) (trace w0)) in
        match timer_callback t eventtime w0 with
        | (Ok next, w1) => Some (Ok tt, with_timers (set_waketime t next (timers w1)) w1)
        | (Raise e, w1) => Some (Raise e, w1)
        | (Polling, w1) => Some (Polling, w1)
        end
      else None
  | callback =>
      match callbacks w with
      | [] => None
      | cb :: rest =>
          let w0 := with_callbacks rest (tick w) in
          Some (run_callback cb (monotonic (readings env (epoch w0) (trace w0))) w0)
      end
  | UNLOAD_FILAMENT gcmd => Some (cmd_UNLOAD_FILAMENT gcmd (tick w))
  | CUT gcmd => Some (CutterSensor.cmd_CUT gcmd (tick w))
  | SET_FILAMENT_SENSOR gcmd => Some (CutterSensor.cmd_SET_FILAMENT_SENSOR gcmd (tick w))
  | QUERY_FILAMENT_SENSOR gcmd => Some (CutterSensor.cmd_QUERY_FILAMENT_SENSOR gcmd (tick w))
  end.

(** A schedule of events, run until one cannot occur or does not return. *)
Fixpoint run (es : list Event) (w : World) : option (Result unit * World) :=
  match es with
  | [] => Some (Ok tt, w)
  | e :: es' =>
      match dispatch e w with
      | Some (Ok _, w') => run es' w'
      | other => other
      end
  end.

(** The world when both objects have been constructed: the attributes of
    their [__init__], every timer registered at [NEVER], nothing called. *)
Definition constructed : World :=
  {| cutter := CutterSensor.__init__ env;
     unload := {| unload_started := None; unextrude_count := 0 |};
     timers := {| wake_unextrude_to_sensor := NEVER env;
                  wake_unextrude := NEVER env;
                  wake_verify_flow_sensor := NEVER env;
                  wake_verify_switch_sensor := NEVER env |};
     callbacks := [];
     epoch := 0;
     trace := [] |}.

End Machine.
End Klippy.

(** * Properties *)

Local Arguments Qplus : simpl never.
Local Arguments Qminus : simpl never.
Local Arguments Qmult : simpl never.
Local Arguments Qdiv : simpl never.
Local Arguments Qle_bool : simpl never.
Local Arguments Qeq_bool : simpl never.
Local Arguments contains : simpl never.
Local Arguments lower : simpl never.
Local Arguments String.eqb !s1 !s2.

(** ** Concrete machines for the scenarios *)

Module Scenario.

(** A homed, idle printer at temperature, 100 s after start. *)
Definition idle : Readings :=
  {| monotonic := 100; homed_axes := "xyz"; get_position := mkPos 0 0 0 0;
     extrude_factor := 1; heater_temp := 250; is_shutdown := false;
     idle_timeout_state := "Ready"; print_stats_state := Some "standby";
     is_paused := false; sd_is_active := false; load_started := false;
     switch_filament_detected := true; flow_filament_detected := true |}.


(** Klipper's reactor constants, fixed readings, no call raises. *)
Definition steady (r : Readings) : Env :=
  {| NOW := 0; NEVER := 9999999999999999;
     readings := fun _ _ => r; raises := fun _ _ _ => None |}.

Definition cutter_sensor : CutterSensor.Config :=
  {| CutterSensor.toolhead := true;
     CutterSensor.custom_boundary_object := true;
     CutterSensor.load_filament_object := true;
     CutterSensor.unload_filament_object := true;
     CutterSensor.extrude_length_mm := 5;
     CutterSensor.retract_length_mm := -5;
     CutterSensor.extrude_speed := 2;
     CutterSensor.travel_speed := 100;
     CutterSensor.cut_speed := 100;
     CutterSensor.cutter_position_x := 10;
     CutterSensor.cutter_position_y := 20;
     CutterSensor.pre_cutter_position_x := 30;
     CutterSensor.pre_cutter_position_y := 20;
     CutterSensor.bucked_position_xy := None;
     CutterSensor.runout_gcode := Some "RUNOUT";
     CutterSensor.insert_gcode := Some "INSERT";
     CutterSensor.event_delay := 0.3;
     CutterSensor.pause_delay := 0.5;
     CutterSensor.runout_pause := false;
     CutterSensor.has_pause_resume := true |}.

(** An unload module with the given cutter, pulse budget and switch sensor. *)
Definition unload_filament (cutter : bool) (budget : option Z) (switch : bool)
  : UnloadFilament.Config :=
  {| UnloadFilament.toolhead := true;
     UnloadFilament.idex := false;
     UnloadFilament.custom_boundary_object := false;
     UnloadFilament.bucket_object := false;
     UnloadFilament.cutter_object := cutter;
     UnloadFilament.filament_flow_sensor_object := false;
     UnloadFilament.filament_switch_sensor_object := switch;
     UnloadFilament.unload_speed := 50;
     UnloadFilament.timeout := budget;
     UnloadFilament.has_pause_resume := true;
     UnloadFilament.has_virtual_sdcard := true;
     UnloadFilament.has_gcode_macro_PAUSE := true |}.

Definition all_never : Timers :=
  {| wake_unextrude_to_sensor := 9999999999999999;
     wake_unextrude := 9999999999999999;
     wake_verify_flow_sensor := 9999999999999999;
     wake_verify_switch_sensor := 9999999999999999 |}.

(** The world once klippy is ready: nothing running, filament loaded, the
    start-up quiet period (2 s) long over. *)
Definition ready : World :=
  {| cutter := {| filament_present := true; sensor_enabled := 1;
                  min_event_systime := 2; is_cutting := false; prev_pos := None |};
     unload := {| unload_started := None; unextrude_count := 0 |};
     timers := all_never; callbacks := []; epoch := 0; trace := [] |}.

(** [UNLOAD_FILAMENT] and [CUT] without parameters: the defaults apply. *)
Definition plain : GCodeCommand :=
  {| TEMPERATURE := inl 250;
     TOOLHEAD := inr (CommandError "Error on 'UNLOAD_FILAMENT': missing TOOLHEAD");
     ENABLE := inl 1%Z;
     MOVE_TO_LAST_POS := inl false;
     TURN_OFF_HEATER := inl false |}.

Definition cutting (w : World) : World := with_cutter (set_is_cutting true (cutter w)) w.
Definition unloading (w : World) : World :=
  with_unload (set_unload_started (Some true) (unload w)) w.

End Scenario.

(** ** Vocabulary of the properties *)

(** *** Frames *)

(** A frame: a relation between the world before and the world after that
    survives sequencing. *)
Class Frame (R : World -> World -> Prop) : Prop := {
  frame_refl : forall w, R w w;
  frame_trans : forall a b c, R a b -> R b c -> R a c
}.

(** [m] keeps [R]: however [m] ends, the world it leaves is related to the
    world it started from. *)
Definition keeps {A} (R : World -> World -> Prop) (m : M A) : Prop :=
  forall w r w', m w = (r, w') -> R w w'.

(** Frame: the attributes of the unload object stay as they are. *)
Definition same_unload (w w' : World) : Prop := unload w' = unload w.

(** Frame: the guard of the unload stays as it is. *)
Definition same_unload_started (w w' : World) : Prop :=
  unload_started (unload w') = unload_started (unload w).

(** Frame: the guard of the cutter stays as it is. *)
Definition same_is_cutting (w w' : World) : Prop :=
  is_cutting (cutter w') = is_cutting (cutter w).

(** Frame: the guard of the unload is left alone or set, never cleared. *)
Definition guard_kept_or_set (w w' : World) : Prop :=
  unload_started (unload w') = unload_started (unload w)
  \/ unload_started (unload w') = Some true.

(** Frame: every call made in between satisfies the test [P]. *)
Definition calls_only (P : Action -> bool) (w w' : World) : Prop :=
  exists l, trace w' = trace w ++ l /\ forallb P l = true.


(** *** Kinds of calls *)

(** [o is not None]. *)
Definition is_some {A} (o : option A) : bool :=
  match o with
  | Some _ => true
  | None => false
  end.

(** The method returned normally. *)
Definition is_ok {A} (r : Result A) : bool :=
  match r with
  | Ok _ => true
  | _ => false
  end.

(** How many calls of a kind were made. *)
Definition count (P : Action -> bool) (tr : list Action) : nat := length (filter P tr).

(** A retraction pulse of the unload is one [toolhead.manual_move]. *)
Definition is_manual_move (a : Action) : bool :=
  match a with
  | manual_move _ _ => true
  | _ => false
  end.

(** Retraction pulses issued so far. *)
Definition pulses (tr : list Action) : nat := length (filter is_manual_move tr).

(** A push of the saved machine state. *)
Definition is_save (a : Action) : bool :=
  match a with
  | run_script_from_command script =>
      String.prefix "SAVE_GCODE_STATE" script || String.prefix "SAVE_DUAL_CARRIAGE_STATE" script
  | _ => false
  end.

(** A pop of the saved machine state. *)
Definition is_restore (a : Action) : bool :=
  match a with
  | run_script_from_command script =>
      String.prefix "RESTORE_GCODE_STATE" script
      || String.prefix "RESTORE_DUAL_CARRIAGE_STATE" script
  | _ => false
  end.

(** The cutter strategy: a cut is handed to the reactor. *)
Definition starts_cut (a : Action) : bool :=
  match a with
  | register_callback (cb_cut _ _ _) => true
  | _ => false
  end.

(** The timer strategy: the pulse timer of the unload is armed. *)
Definition starts_pulses (a : Action) : bool :=
  match a with
  | update_timer unextrude_timer _ => true
  | _ => false
  end.

(** A cut registered in any other way than
    [return_last_pos=False, off_heaters=False]. *)
Definition starts_other_cut (a : Action) : bool :=
  match a with
  | register_callback (cb_cut _ return_last_pos off_heaters) => return_last_pos || off_heaters
  | _ => false
  end.

(** Calls made before the strategy is chosen: no timer, no callback. *)
Definition before_extraction (a : Action) : bool :=
  match a with
  | update_timer _ _ => false
  | register_callback _ => false
  | _ => true
  end.

(** The switch-sensor poll is armed. *)
Definition arms_verification (a : Action) : bool :=
  match a with
  | update_timer verify_switch_sensor_timer _ => true
  | _ => false
  end.

(** Any call but that one. *)
Definition before_verification (a : Action) : bool := negb (arms_verification a).

(** The calls [cmd_UNLOAD_FILAMENT] may make when a cut may be delegated
    ([cut_allowed]) and when the pulse timer may be armed
    ([pulses_allowed]): never a pause request, never a macro, never a
    callback other than a cut with [return_last_pos = False] and
    [off_heaters = False]. *)
Definition unload_call (cut_allowed pulses_allowed : bool) (a : Action) : bool :=
  match a with
  | update_timer unextrude_timer _ => pulses_allowed
  | register_callback (cb_cut _ return_last_pos off_heaters) =>
      cut_allowed && negb return_last_pos && negb off_heaters
  | register_callback _ => false
  | run_script _ => false
  | send_pause_command => false
  | run_script_from_command script => negb (String.eqb script "PAUSE")
  | _ => true
  end.

(** Calls that [cut] never makes. *)
Definition never_by_cut (a : Action) : bool :=
  match a with
  | update_timer unextrude_to_sensor_timer _ => false
  | update_timer _ _ => true
  | register_callback _ => true
  | run_script _ => true
  | send_pause_command => true
  | run_script_from_command script => String.eqb script "PAUSE"
  | _ => false
  end.


(** *** Worlds and machines *)

(** The world after [n] dispatches that only recorded the level [state]. *)
Definition record_level (state : bool) (n : nat) (w : World) : World :=
  with_epoch (epoch w + n) (with_cutter (set_filament_present state (cutter w)) w).

(** [self.sensor_enabled = v]. *)
Definition with_sensor_enabled (v : Z) (w : World) : World :=
  with_cutter (set_sensor_enabled_attr v (cutter w)) w.

(** Whether a load or an unload is running, as the callback asks it. *)
Definition load_or_unload_started (env : Env) (c : CutterSensor.Config) (w : World) : bool :=
  (CutterSensor.load_filament_object c && load_started (readings env (epoch w) (trace w)))
  || (CutterSensor.unload_filament_object c && truthy (unload_started (unload w))).


(** The last step of the command: arm the switch-sensor poll, if any. *)
Definition start_verification (env : Env) (u : UnloadFilament.Config) (w : World) : World :=
  if UnloadFilament.filament_switch_sensor_object u then
    let w1 := log (respond_info
                     "[UNLOAD FILAMENT] Starting filament switch sensor unload verification in 10 seconds")
                  w in
    log (update_timer verify_switch_sensor_timer (NOW env + 5.0))
        (with_timers (set_waketime verify_switch_sensor_timer (NOW env + 5.0) (timers w1)) w1)
  else w.

(** The timer strategy: arm the pulse timer, and the flow poll if any. *)
Definition start_pulses (env : Env) (u : UnloadFilament.Config) (w : World) : World :=
  let w1 := log (update_timer unextrude_timer (NOW env))
                (with_timers (set_waketime unextrude_timer (NOW env) (timers w)) w) in
  if UnloadFilament.filament_flow_sensor_object u then
    log (update_timer verify_flow_sensor_timer (NOW env))
        (with_timers (set_waketime verify_flow_sensor_timer (NOW env) (timers w1)) w1)
  else w1.



(** *** Scenarios *)

(** The quiet period in force: the world right after a runout was acted
    upon on an idle printer (deadline at [NEVER], reaction scheduled). *)
Definition after_runout : World :=
  snd (Klippy.cutter_sensor_callback (Scenario.steady Scenario.idle) Scenario.cutter_sensor
         (Scenario.unload_filament false None false) false (Klippy.tick Scenario.ready)).

(** An unload with a cutter, in the middle of the cut: both guards set. *)
Definition cutting_for_unload : World :=
  Klippy.tick (Scenario.cutting (Scenario.unloading Scenario.ready)).

(** The scenario of the budget: ceiling 5, no cutter, no sensor; the world
    right after [UNLOAD_FILAMENT] on the idle printer. *)
Definition budget_of_five : UnloadFilament.Config :=
  Scenario.unload_filament false (Some 5%Z) false.


(** An unload module with a cutter, no budget and no switch sensor. *)
Definition with_cutter_only : UnloadFilament.Config :=
  Scenario.unload_filament true None false.

(** A printer whose Z axis is not homed, and stays so after G28 (a homing
    override that homes X and Y only). *)
Definition z_not_homed : Readings :=
  {| monotonic := 100; homed_axes := "xy"; get_position := mkPos 0 0 0 0;
     extrude_factor := 1; heater_temp := 25; is_shutdown := false;
     idle_timeout_state := "Ready"; print_stats_state := Some "standby";
     is_paused := false; sd_is_active := false; load_started := false;
     switch_filament_detected := true; flow_filament_detected := true |}.

(** An idle printer on which homing fails. *)
Definition homing_fails : Env :=
  {| NOW := 0; NEVER := 9999999999999999;
     readings := fun _ _ => z_not_homed;
     raises := fun _ _ a =>
       match a with
       | run_script_from_command _ => Some (CommandError "No trigger on z after full movement")
       | _ => None
       end |}.

(** An idle, homed printer whose heater call fails once it is waited for. *)
Definition heating_fails : Env :=
  {| NOW := 0; NEVER := 9999999999999999;
     readings := fun _ _ => Scenario.idle;
     raises := fun _ _ a =>
       match a with
       | set_temperature _ true => Some (ExternalError "Heater extruder not heating at expected rate")
       | _ => None
       end |}.

(** A dual-carriage printer with a switch sensor and a pulse budget. *)
Definition idex_unload : UnloadFilament.Config :=
  {| UnloadFilament.toolhead := true;
     UnloadFilament.idex := true;
     UnloadFilament.custom_boundary_object := false;
     UnloadFilament.bucket_object := false;
     UnloadFilament.cutter_object := false;
     UnloadFilament.filament_flow_sensor_object := false;
     UnloadFilament.filament_switch_sensor_object := true;
     UnloadFilament.unload_speed := 50;
     UnloadFilament.timeout := Some 10%Z;
     UnloadFilament.has_pause_resume := true;
     UnloadFilament.has_virtual_sdcard := true;
     UnloadFilament.has_gcode_macro_PAUSE := true |}.

(** *** Further vocabulary *)

(** The measured temperature is within 5 degrees of the target. *)
Definition within_5 (temp measured : Q) : Prop :=
  temp - 5 <= measured /\ measured <= temp + 5.

(** A presence or absence notification on the event bus. *)
Definition is_notification (a : Action) : bool :=
  match a with
  | send_event _ => true
  | _ => false
  end.

(** What the two print-state sources say, as the callback reads them:
    idle_timeout, and print_stats when it is loaded. *)
Definition idle_timeout_printing (r : Readings) : bool :=
  String.eqb (idle_timeout_state r) "Printing".

Definition print_stats_printing (r : Readings) : bool :=
  truthy (option_map (fun s => String.eqb s "Printing") (print_stats_state r)).

(** The transition is looked at: the level changed and the quiet period
    is over. *)
Definition accepted (env : Env) (state : bool) (w : World) : Prop :=
  state <> filament_present (cutter w)
  /\ ~ monotonic (readings env (epoch w) (trace w)) < min_event_systime (cutter w).

(** A print in progress on which idle_timeout reports "Printing" while
    print_stats reports a paused job. *)
Definition sources_disagree : Readings :=
  {| monotonic := 100; homed_axes := "xyz"; get_position := mkPos 0 0 0 0;
     extrude_factor := 1; heater_temp := 250; is_shutdown := false;
     idle_timeout_state := "Printing"; print_stats_state := Some "paused";
     is_paused := true; sd_is_active := true; load_started := false;
     switch_filament_detected := true; flow_filament_detected := true |}.

(** A sensor configured with [pause_on_runout]. *)
Definition pausing_on_runout : CutterSensor.Config :=
  {| CutterSensor.toolhead := true;
     CutterSensor.custom_boundary_object := true;
     CutterSensor.load_filament_object := true;
     CutterSensor.unload_filament_object := true;
     CutterSensor.extrude_length_mm := 5;
     CutterSensor.retract_length_mm := -5;
     CutterSensor.extrude_speed := 2;
     CutterSensor.travel_speed := 100;
     CutterSensor.cut_speed := 100;
     CutterSensor.cutter_position_x := 10;
     CutterSensor.cutter_position_y := 20;
     CutterSensor.pre_cutter_position_x := 30;
     CutterSensor.pre_cutter_position_y := 20;
     CutterSensor.bucked_position_xy := None;
     CutterSensor.runout_gcode := Some "RUNOUT";
     CutterSensor.insert_gcode := Some "INSERT";
     CutterSensor.event_delay := 0.3;
     CutterSensor.pause_delay := 0.5;
     CutterSensor.runout_pause := true;
     CutterSensor.has_pause_resume := true |}.

(** No call into a collaborator raises. *)
Definition never_raises (env : Env) : Prop :=
  forall n tr a, raises env n tr a = None.

(** A retraction pulse of the cutter is one [toolhead.move]. *)
Definition is_toolhead_move (a : Action) : bool :=
  match a with
  | toolhead_move _ _ => true
  | _ => false
  end.




(** The two notifications of the unload on the event bus. *)
Definition is_unload_start (a : Action) : bool :=
  match a with
  | send_event topic => String.eqb topic "unload_filament:start"
  | _ => false
  end.

Definition is_unload_end (a : Action) : bool :=
  match a with
  | send_event topic => String.eqb topic "unload_filament:end"
  | _ => false
  end.

(** Every start notification but the one of a running unload has been
    followed by an end notification. *)
Definition balanced (w : World) : Prop :=
  count is_unload_start (trace w)
  = (count is_unload_end (trace w)
     + if truthy (unload_started (unload w)) then 1 else 0)%nat.

(** A homed printer whose kinematics report the axes in upper case. *)
Definition upper_case_axes : Readings :=
  {| monotonic := 100; homed_axes := "XYZ"; get_position := mkPos 0 0 0 0;
     extrude_factor := 1; heater_temp := 250; is_shutdown := false;
     idle_timeout_state := "Ready"; print_stats_state := Some "standby";
     is_paused := false; sd_is_active := false; load_started := false;
     switch_filament_detected := true; flow_filament_detected := true |}.

(** The idle printer once the switch sensor has seen the filament leave. *)
Definition filament_gone : Readings :=
  {| monotonic := 100; homed_axes := "xyz"; get_position := mkPos 0 0 0 0;
     extrude_factor := 1; heater_temp := 250; is_shutdown := false;
     idle_timeout_state := "Ready"; print_stats_state := Some "standby";
     is_paused := false; sd_is_active := false; load_started := false;
     switch_filament_detected := false; flow_filament_detected := false |}.

(** Frame: a property of the world that holds before holds after. *)
Definition preserves (I : World -> Prop) (w w' : World) : Prop := I w -> I w'.

(** Frame: the guard of the unload and the numbers of its start and end
    notifications stay as they are. *)
Definition unload_quiet (w w' : World) : Prop :=
  unload_started (unload w') = unload_started (unload w)
  /\ count is_unload_start (trace w') = count is_unload_start (trace w)
  /\ count is_unload_end (trace w') = count is_unload_end (trace w).

(** Frame: one aspect of the world stays as it is. *)
Definition same_on {A} (f : World -> A) (w w' : World) : Prop := f w' = f w.

(** The custom printer boundary is put back in force. *)
Definition is_set_custom_boundary (a : Action) : bool :=
  match a with
  | set_custom_boundary => true
  | _ => false
  end.

(** ** Reasoning about what a method leaves behind *)

Section Keeps.
Context {R : World -> World -> Prop} `{Frame R}.

Lemma keeps_ret {A} (a : A) : keeps R (ret a).
Proof. intros w r w' E. inversion E. apply frame_refl. Qed.

Lemma keeps_raise {A} (e : Exn) : keeps R (@raise A e).
Proof. intros w r w' E. inversion E. apply frame_refl. Qed.

Lemma keeps_polling {A} : keeps R (fun w => (@Polling A, w)).
Proof. intros w r w' E. inversion E. apply frame_refl. Qed.

Lemma keeps_get : keeps R get.
Proof. intros w r w' E. inversion E. apply frame_refl. Qed.

Lemma keeps_read env : keeps R (Calls.read env).
Proof. intros w r w' E. inversion E. apply frame_refl. Qed.

Lemma keeps_gcmd_get {A} (p : A + Exn) : keeps R (gcmd_get p).
Proof. destruct p; [apply keeps_ret | apply keeps_raise]. Qed.

Lemma keeps_bind {A B} (m : M A) (k : A -> M B) :
  keeps R m -> (forall a, keeps R (k a)) -> keeps R (bind m k).
Proof.
  intros Hm Hk w r w' E. unfold bind in E.
  destruct (m w) as [[a | e |] w1] eqn:Em.
  - eapply frame_trans; [eapply Hm, Em | eapply Hk, E].
  - inversion E; subst. eapply Hm, Em.
  - inversion E; subst. eapply Hm, Em.
Qed.

Lemma keeps_try_except {A} (m : M A) (h : Exn -> M A) :
  keeps R m -> (forall e, keeps R (h e)) -> keeps R (try_except m h).
Proof.
  intros Hm Hh w r w' E. unfold try_except in E.
  destruct (m w) as [[a | e |] w1] eqn:Em.
  - inversion E; subst. eapply Hm, Em.
  - eapply frame_trans; [eapply Hm, Em | eapply Hh, E].
  - inversion E; subst. eapply Hm, Em.
Qed.

Lemma keeps_when (b : bool) (m : M unit) : keeps R m -> keeps R (when b m).
Proof. destruct b; [auto | intros _; apply keeps_ret]. Qed.

Lemma keeps_modify (f : World -> World) :
  (forall w, R w (f w)) -> keeps R (modify f).
Proof. intros Hf w r w' E. inversion E. apply Hf. Qed.

Lemma keeps_emit (a : Action) :
  (forall w, R w (log a w)) -> keeps R (Calls.emit a).
Proof. intros Hf. apply keeps_modify, Hf. Qed.

Lemma keeps_call env (a : Action) :
  (forall w, R w (log a w)) -> keeps R (Calls.call env a).
Proof.
  intros Hf w r w' E. unfold Calls.call in E.
  destruct (raises env (epoch w) (trace w) a); inversion E; apply Hf.
Qed.

End Keeps.

(** Walks through a method, one construct at a time; [leaf] settles what
    a single assignment or call does to the frame. *)
Ltac keeps_with leaf :=
  repeat first
    [ match goal with
      | H : forall x y z, keeps _ (?f x y z) |- keeps _ (?f _ _ _) => apply H
      end
    | apply keeps_ret | apply keeps_raise | apply keeps_polling
    | apply keeps_get | apply keeps_read | apply keeps_gcmd_get
    | apply keeps_bind; [| intro]
    | apply keeps_try_except; [| intro]
    | apply keeps_when
    | apply keeps_emit; intro; leaf
    | apply keeps_call; intro; leaf
    | apply keeps_modify; intro; leaf
    | match goal with
      | |- keeps _ (if ?b then _ else _) => destruct b
      | |- keeps _ (match ?x with _ => _ end) => destruct x
      end ].

(** *** Frame: the attributes of the unload object stay as they are *)

#[local] Instance same_unload_frame : Frame same_unload.
Proof. split; unfold same_unload; congruence. Qed.

(** *** Frame: the guard of the unload stays as it is *)

#[local] Instance same_unload_started_frame : Frame same_unload_started.
Proof. split; unfold same_unload_started; congruence. Qed.

#[local] Instance same_is_cutting_frame : Frame same_is_cutting.
Proof. split; unfold same_is_cutting; congruence. Qed.

#[local] Instance guard_kept_or_set_frame : Frame guard_kept_or_set.
Proof.
  split; unfold guard_kept_or_set.
  - auto.
  - intros a b c [H1 | H1] [H2 | H2]; [left | right | right | right]; congruence.
Qed.

(** *** Frame: every call made satisfies a given test *)

#[local] Instance calls_only_frame P : Frame (calls_only P).
Proof.
  split.
  - intros w. exists []. now rewrite app_nil_r.
  - intros a b c [l1 [E1 F1]] [l2 [E2 F2]]. exists (l1 ++ l2). split.
    + now rewrite E2, E1, app_assoc.
    + rewrite forallb_app, F1, F2. reflexivity.
Qed.

Lemma calls_only_log P a w : P a = true -> calls_only P w (log a w).
Proof. intros Pa. exists [a]. cbn. now rewrite Pa. Qed.

Lemma calls_only_silent P w w' : trace w' = trace w -> calls_only P w w'.
Proof. intros E. exists []. now rewrite app_nil_r. Qed.

(** ** Re-entrancy *)

(** C2. [cut] called while [is_cutting] is set, and [cmd_UNLOAD_FILAMENT]
    called while [unload_started] is set, only answer on the console: the
    world they leave is the world they found plus that one [respond_info],
    so no motion or heat command is issued, no timer or callback is
    touched, and the guard is still set.  (An [UNLOAD_FILAMENT] whose
    TEMPERATURE is rejected by the parser raises before it looks at the
    guard, and changes nothing either.  Without a toolhead the command
    returns at once and changes nothing, so it never sets the guard: an
    unload that is running has a toolhead.) *)
Theorem reentrant_invocation_is_rejected :
  forall env c u fuel,
    (forall return_last_pos off_heaters temp w,
        is_cutting (cutter w) = true ->
        let after := log (respond_info "[CUTTER] Already cutting filament") w in
        Klippy.cut env c fuel return_last_pos off_heaters temp w = (Ok tt, after)
        /\ is_cutting (cutter after) = true)
    /\ (forall gcmd w,
        unload_started (unload w) = Some true ->
        UnloadFilament.toolhead u = true ->
        let after := log (respond_info "Printer already unloading filament") w in
        (forall temp, TEMPERATURE gcmd = inl temp ->
           Klippy.cmd_UNLOAD_FILAMENT env c u fuel gcmd w = (Ok tt, after))
        /\ (forall e, TEMPERATURE gcmd = inr e ->
           Klippy.cmd_UNLOAD_FILAMENT env c u fuel gcmd w = (Raise e, w))
        /\ unload_started (unload after) = Some true)
    /\ (forall gcmd w,
        UnloadFilament.toolhead u = false ->
        snd (Klippy.cmd_UNLOAD_FILAMENT env c u fuel gcmd w) = w).
Proof.
  intros env c u fuel. split; [|split].
  - intros rlp oh temp w H. split; [|exact H].
    unfold Klippy.cut, CutterSensor.cut, bind, get. now rewrite H.
  - intros gcmd w Hs Ht. repeat split.
    + intros temp Hg.
      unfold Klippy.cmd_UNLOAD_FILAMENT, UnloadFilament.cmd_UNLOAD_FILAMENT.
      rewrite Hg, Ht. cbn.
      unfold try_except, bind, UnloadFilament.get_unload_started, bind, get, ret.
      now rewrite Hs.
    + intros e Hg.
      unfold Klippy.cmd_UNLOAD_FILAMENT, UnloadFilament.cmd_UNLOAD_FILAMENT.
      now rewrite Hg.
    + exact Hs.
  - intros gcmd w Ht.
    unfold Klippy.cmd_UNLOAD_FILAMENT, UnloadFilament.cmd_UNLOAD_FILAMENT.
    rewrite Ht. destruct (TEMPERATURE gcmd); reflexivity.
Qed.

Lemma reentrant_invocation_is_rejected_witness :
  Klippy.cut (Scenario.steady Scenario.idle) Scenario.cutter_sensor 3 false false 220
    (Scenario.cutting Scenario.ready)
  = (Ok tt, log (respond_info "[CUTTER] Already cutting filament")
              (Scenario.cutting Scenario.ready))
  /\ Klippy.cmd_UNLOAD_FILAMENT (Scenario.steady Scenario.idle) Scenario.cutter_sensor
       (Scenario.unload_filament false (Some 10%Z) false) 3 Scenario.plain
       (Scenario.unloading Scenario.ready)
     = (Ok tt, log (respond_info "Printer already unloading filament")
                 (Scenario.unloading Scenario.ready)).
Proof.
  destruct (reentrant_invocation_is_rejected (Scenario.steady Scenario.idle)
              Scenario.cutter_sensor (Scenario.unload_filament false (Some 10%Z) false) 3)
    as [Hcut [Hunload _]].
  split.
  - apply (proj1 (Hcut false false 220 (Scenario.cutting Scenario.ready) eq_refl)).
  - apply (proj1 (Hunload Scenario.plain (Scenario.unloading Scenario.ready)
                    eq_refl eq_refl) 250).
    reflexivity.
Defined.

(** ** Completion of an unload *)




(** ** The sensor callback *)

Lemma Qltb_lt (a b : Q) : Qltb a b = true <-> a < b.
Proof.
  unfold Qltb. rewrite negb_true_iff. split.
  - intros E. apply Qnot_le_lt. intros L. apply Qle_bool_iff in L. congruence.
  - intros L. destruct (Qle_bool b a) eqn:E; [|reflexivity].
    apply Qle_bool_iff in E. exfalso. exact (Qlt_not_le _ _ L E).
Qed.

(** All methods the sensor callback is made of. *)
Ltac unfold_callback :=
  unfold Klippy.cutter_sensor_callback, CutterSensor.cutter_sensor_callback,
    CutterSensor.printer_send_event, UnloadFilament.handle_cutter_fnp,
    UnloadFilament.get_unload_started, CutterSensor.assign_is_cutting,
    CutterSensor.assign_min_event_systime, Calls.reactor_update_timer,
    Calls.reactor_register_callback, Calls.emit, Calls.call, Calls.read,
    when, bind, get, modify, ret.

(** A transition that repeats the stored level is dropped. *)
Lemma callback_same_level env c u w :
  Klippy.cutter_sensor_callback env c u (filament_present (cutter w)) w = (Ok tt, w).
Proof. unfold_callback. now rewrite Bool.eqb_reflx. Qed.

(** A transition inside the quiet period is recorded and otherwise ignored. *)
Lemma callback_in_quiet_period env c u state w :
  state <> filament_present (cutter w) ->
  monotonic (readings env (epoch w) (trace w)) < min_event_systime (cutter w) ->
  Klippy.cutter_sensor_callback env c u state w
  = (Ok tt, with_cutter (set_filament_present state (cutter w)) w).
Proof.
  intros Hne Hq. unfold_callback.
  destruct (Bool.eqb state (filament_present (cutter w))) eqn:E.
  - apply Bool.eqb_prop in E. contradiction.
  - cbn. apply Qltb_lt in Hq. now rewrite Hq.
Qed.

Lemma record_level_tick x n w :
  record_level x n (Klippy.tick w) = record_level x (S n) w.
Proof.
  unfold record_level, Klippy.tick, with_epoch, with_cutter. cbn.
  f_equal. lia.
Qed.

Lemma record_level_stored w :
  record_level (filament_present (cutter w)) 0 w = w.
Proof.
  destruct w as [[fp se mes ic pp] un ts cbs ep tr].
  unfold record_level, with_epoch, with_cutter, set_filament_present. cbn.
  now rewrite Nat.add_0_r.
Qed.

Lemma last_cons {A} (x d : A) (l : list A) : last (x :: l) d = last l x.
Proof.
  revert x d. induction l as [|y l IH]; intros x d; [reflexivity|].
  change (last (x :: y :: l) d) with (last (y :: l) d).
  now rewrite (IH y d), (IH y x).
Qed.

(** A burst of transitions that all arrive inside the quiet period: the
    stored level follows the pin, and nothing else happens. *)
Lemma burst_in_quiet_period env c u fuel states :
  forall w,
    (forall k, (k < length states)%nat ->
       monotonic (readings env (S (epoch w + k)) (trace w))
       < min_event_systime (cutter w)) ->
    Klippy.run env c u fuel (map Klippy.button states) w
    = Some (Ok tt, record_level (last states (filament_present (cutter w)))
                     (length states) w).
Proof.
  induction states as [|s rest IH]; intros w Hq.
  - cbn. now rewrite record_level_stored.
  - cbn [map Klippy.run Klippy.dispatch].
    assert (Hq0 := Hq 0%nat). rewrite Nat.add_0_r in Hq0.
    rewrite last_cons.
    destruct (Bool.eqb s (filament_present (cutter w))) eqn:E.
    + apply Bool.eqb_prop in E. subst s.
      change (filament_present (cutter w))
        with (filament_present (cutter (Klippy.tick w))) at 1.
      rewrite callback_same_level.
      rewrite IH.
      * rewrite record_level_tick. reflexivity.
      * intros k Hk. cbn. rewrite <- Nat.add_succ_r. apply Hq. cbn. lia.
    + rewrite callback_in_quiet_period.
      * rewrite IH.
        -- cbn [cutter with_cutter filament_present set_filament_present length].
           rewrite <- record_level_tick. reflexivity.
        -- intros k Hk. cbn. rewrite <- Nat.add_succ_r. apply Hq. cbn. lia.
      * cbn. intros ->. now rewrite Bool.eqb_reflx in E.
      * cbn. apply Hq0. cbn. lia.
Qed.

(** C4, as the code has it.  A transition that repeats the stored level is
    a complete no-op.  A transition that arrives before [min_event_systime]
    emits no event, schedules no reaction and runs no command, but it is
    not a complete no-op: [filament_present] is overwritten before the
    deadline is looked at.  So after any burst of transitions inside the
    quiet period the world is the one the burst found, except that
    [filament_present] holds the last level delivered (and the reactor has
    counted the dispatches). *)
Theorem quiet_period_transitions_only_update_presence :
  forall env c u fuel,
    (forall w, Klippy.cutter_sensor_callback env c u (filament_present (cutter w)) w
               = (Ok tt, w))
    /\ (forall state w,
          state <> filament_present (cutter w) ->
          monotonic (readings env (epoch w) (trace w)) < min_event_systime (cutter w) ->
          Klippy.cutter_sensor_callback env c u state w
          = (Ok tt, with_cutter (set_filament_present state (cutter w)) w))
    /\ (forall states w,
          (forall k, (k < length states)%nat ->
             monotonic (readings env (S (epoch w + k)) (trace w))
             < min_event_systime (cutter w)) ->
          Klippy.run env c u fuel (map Klippy.button states) w
          = Some (Ok tt, record_level (last states (filament_present (cutter w)))
                           (length states) w)).
Proof.
  intros env c u fuel. repeat split.
  - apply callback_same_level.
  - apply callback_in_quiet_period.
  - apply burst_in_quiet_period.
Qed.

Lemma quiet_period_transitions_only_update_presence_witness :
  Klippy.run (Scenario.steady Scenario.idle) Scenario.cutter_sensor
    (Scenario.unload_filament false None false) 3
    (map Klippy.button [true; false; true]) after_runout
  = Some (Ok tt, record_level true 3 after_runout).
Proof.
  apply (proj2 (proj2 (quiet_period_transitions_only_update_presence
                         (Scenario.steady Scenario.idle) Scenario.cutter_sensor
                         (Scenario.unload_filament false None false) 3))
           [true; false; true] after_runout).
  intros k Hk. vm_compute. reflexivity.
Defined.

(** C4, counterexample.  A runout on an idle printer is acted upon and
    puts the deadline at [NEVER]; the next transition arrives before the
    deadline and still changes stored state: [filament_present] flips from
    [False] to [True]. *)
Lemma quiet_period_transition_changes_stored_presence :
  let env := Scenario.steady Scenario.idle in
  let u := Scenario.unload_filament false None false in
  monotonic (readings env (S (epoch after_runout)) (trace after_runout))
  < min_event_systime (cutter after_runout)
  /\ filament_present (cutter after_runout) = false
  /\ exists w',
      Klippy.dispatch env Scenario.cutter_sensor u 3 (Klippy.button true) after_runout
      = Some (Ok tt, w')
      /\ filament_present (cutter w') = true
      /\ w' <> Klippy.tick after_runout.
Proof.
  cbv zeta. split; [vm_compute; reflexivity|]. split; [reflexivity|].
  eexists. split; [vm_compute; reflexivity|]. split; [reflexivity|].
  intros E. apply (f_equal (fun w => filament_present (cutter w))) in E.
  vm_compute in E. discriminate.
Qed.

(** ** The [sensor_enabled] flag *)

(** Unfolds the remaining monadic structure and splits on every test. *)
Ltac split_paths :=
  repeat (cbn -[Qplus Qminus Qmult Qdiv Qle_bool Qeq_bool contains lower String.eqb
                 String.append nl] in *;
          match goal with
          | |- context [match ?x with _ => _ end] =>
              lazymatch x with
              | context [match _ with _ => _ end] => fail
              | _ => destruct x eqn:?
              end
          end).

(** The callback never reads [sensor_enabled]: it commutes with any
    assignment to it. *)
Lemma callback_ignores_sensor_enabled env c u v state w :
  Klippy.cutter_sensor_callback env c u state (with_sensor_enabled v w)
  = (fst (Klippy.cutter_sensor_callback env c u state w),
     with_sensor_enabled v (snd (Klippy.cutter_sensor_callback env c u state w))).
Proof.
  unfold with_sensor_enabled. unfold_callback. unfold try_except, Qltb.
  split_paths; reflexivity.
Qed.

(** C10. [SET_FILAMENT_SENSOR ENABLE=v] stores [v] in [sensor_enabled] and
    does nothing else; the sensor callback does the same thing whatever the
    flag holds (same outcome, and the same world up to the flag itself:
    stored level, deadline, guard, timers, scheduled reactions and calls
    made); [get_status] shows the flag as "enabled" and nowhere else. *)
Theorem sensor_enabled_only_shows_in_status :
  forall env c u,
    (forall gcmd v w,
        ENABLE gcmd = inl v ->
        CutterSensor.cmd_SET_FILAMENT_SENSOR gcmd w = (Ok tt, with_sensor_enabled v w))
    /\ (forall v state w,
        Klippy.cutter_sensor_callback env c u state (with_sensor_enabled v w)
        = (fst (Klippy.cutter_sensor_callback env c u state w),
           with_sensor_enabled v (snd (Klippy.cutter_sensor_callback env c u state w))))
    /\ (forall v w,
        CutterSensor.get_status (with_sensor_enabled v w)
        = {| CutterSensor.filament_detect := CutterSensor.filament_detect (CutterSensor.get_status w);
             CutterSensor.enabled := negb (v =? 0)%Z |}).
Proof.
  intros env c u. repeat split.
  - intros gcmd v w E. unfold CutterSensor.cmd_SET_FILAMENT_SENSOR. now rewrite E.
  - intros. apply callback_ignores_sensor_enabled.
Qed.

Lemma sensor_enabled_only_shows_in_status_witness :
  CutterSensor.cmd_SET_FILAMENT_SENSOR
    {| TEMPERATURE := inl 250; TOOLHEAD := inl "Load_T0"; ENABLE := inl 0%Z;
       MOVE_TO_LAST_POS := inl false; TURN_OFF_HEATER := inl false |}
    Scenario.ready
  = (Ok tt, with_sensor_enabled 0 Scenario.ready).
Proof.
  apply (proj1 (sensor_enabled_only_shows_in_status (Scenario.steady Scenario.idle)
                  Scenario.cutter_sensor (Scenario.unload_filament false None false))).
  reflexivity.
Defined.

(** ** The quiet period after a reaction *)

(** What the callback does to the deadline and to the reactor's queue. *)
Lemma callback_deadline env c u state w :
  let w' := snd (Klippy.cutter_sensor_callback env c u state w) in
  (min_event_systime (cutter w') = min_event_systime (cutter w)
   /\ callbacks w' = callbacks w)
  \/ (load_or_unload_started env c w = false
      /\ min_event_systime (cutter w') = NEVER env
      /\ exists cb, callbacks w' = callbacks w ++ [cb]
                    /\ (cb = cb_insert_event_handler \/ cb = cb_runout_event_handler)).
Proof.
  unfold load_or_unload_started. unfold_callback. unfold try_except, Qltb.
  split_paths;
    first [ left; split; reflexivity
          | right; split; [reflexivity | split; [reflexivity |]];
            eexists; split; [reflexivity | auto] ].
Qed.

Lemma callback_deadline_during_unload env c u state w :
  load_or_unload_started env c w = true ->
  min_event_systime (cutter (snd (Klippy.cutter_sensor_callback env c u state w)))
  = min_event_systime (cutter w).
Proof.
  intros Ha. destruct (callback_deadline env c u state w) as [[E _] | [Hn _]].
  - exact E.
  - congruence.
Qed.

(** [_exec_gcode] returns normally whatever the macro does, and the
    deadline it leaves is the clock plus [event_delay]. *)
Lemma exec_gcode_restarts_quiet_period env c prefix template w :
  exists w',
    CutterSensor._exec_gcode env c prefix template w = (Ok tt, w')
    /\ min_event_systime (cutter w')
       = monotonic (readings env (epoch w') (trace w')) + CutterSensor.event_delay c.
Proof.
  unfold CutterSensor._exec_gcode, CutterSensor.assign_min_event_systime,
    Calls.call, Calls.read, try_except, bind, raise, modify, ret.
  destruct template as [text|].
  - destruct (raises env (epoch w) (trace w) _); eexists; split; reflexivity.
  - eexists; split; reflexivity.
Qed.

Lemma reaction_handler_restarts_quiet_period env c u fuel cb eventtime w w' :
  cb = cb_insert_event_handler \/ cb = cb_runout_event_handler ->
  Klippy.run_callback env c u fuel cb eventtime w = (Ok tt, w') ->
  min_event_systime (cutter w')
  = monotonic (readings env (epoch w') (trace w')) + CutterSensor.event_delay c.
Proof.
  intros [-> | ->]; cbn [Klippy.run_callback].
  - unfold CutterSensor._insert_event_handler. intros E.
    destruct (exec_gcode_restarts_quiet_period env c "" (CutterSensor.insert_gcode c) w)
      as [w2 [E2 H2]].
    rewrite E2 in E. inversion E; subst. exact H2.
  - unfold CutterSensor._runout_event_handler. unfold bind at 1.
    match goal with |- match ?p w with _ => _ end = _ -> _ => destruct (p w) as [[a | e |] w1] end;
      try discriminate.
    intros E.
    destruct (exec_gcode_restarts_quiet_period env c a (CutterSensor.runout_gcode c) w1)
      as [w2 [E2 H2]].
    rewrite E2 in E. inversion E; subst. exact H2.
Qed.

(** C5, as the code has it.  The branches of the callback that schedule
    the insertion or the runout reaction put the deadline at [NEVER] on the
    spot, so nothing is accepted while the reaction is pending; the
    scheduled handler, when it returns, leaves the deadline at the clock
    plus [event_delay], which lies in the future for a positive delay, and
    the insertion handler returns even when its macro fails.  The branch
    taken while a load or an unload is running (presence or absence
    notification, stopping an active cut) leaves the deadline as it was. *)
Theorem quiet_period_follows_scheduled_reactions :
  forall env c u,
    (forall state w,
        let w' := snd (Klippy.cutter_sensor_callback env c u state w) in
        (load_or_unload_started env c w = true ->
           min_event_systime (cutter w') = min_event_systime (cutter w))
        /\ (callbacks w' <> callbacks w ->
           min_event_systime (cutter w') = NEVER env
           /\ exists cb, callbacks w' = callbacks w ++ [cb]
                         /\ (cb = cb_insert_event_handler \/ cb = cb_runout_event_handler)))
    /\ (forall fuel cb eventtime w w',
        cb = cb_insert_event_handler \/ cb = cb_runout_event_handler ->
        Klippy.run_callback env c u fuel cb eventtime w = (Ok tt, w') ->
        min_event_systime (cutter w')
        = monotonic (readings env (epoch w') (trace w')) + CutterSensor.event_delay c
        /\ (0 < CutterSensor.event_delay c ->
            monotonic (readings env (epoch w') (trace w')) < min_event_systime (cutter w')))
    /\ (forall fuel eventtime w,
        exists w', Klippy.run_callback env c u fuel cb_insert_event_handler eventtime w
                   = (Ok tt, w')).
Proof.
  intros env c u. split; [|split].
  - intros state w. cbv zeta. split.
    + apply callback_deadline_during_unload.
    + intros Hq. destruct (callback_deadline env c u state w) as [[_ E] | [_ H]].
      * contradiction.
      * exact H.
  - intros fuel cb eventtime w w' Hcb E.
    pose proof (reaction_handler_restarts_quiet_period env c u fuel cb eventtime w w' Hcb E)
      as H.
    split; [exact H|]. intros Hd. rewrite H. lra.
  - intros fuel eventtime w. cbn [Klippy.run_callback].
    unfold CutterSensor._insert_event_handler.
    destruct (exec_gcode_restarts_quiet_period env c "" (CutterSensor.insert_gcode c) w)
      as [w2 [E2 _]].
    eauto.
Qed.

Lemma quiet_period_follows_scheduled_reactions_witness :
  min_event_systime
    (cutter (snd (Klippy.cutter_sensor_callback (Scenario.steady Scenario.idle)
                    Scenario.cutter_sensor (Scenario.unload_filament true None false)
                    false cutting_for_unload)))
  = min_event_systime (cutter cutting_for_unload).
Proof.
  apply (proj1 (proj1 (quiet_period_follows_scheduled_reactions
                         (Scenario.steady Scenario.idle) Scenario.cutter_sensor
                         (Scenario.unload_filament true None false))
                  false cutting_for_unload)).
  reflexivity.
Defined.

(** C5, counterexample.  During an unload the sensor reports "absent" at
    time 100, long after the deadline (2).  The callback stops the active
    cut, announces "Cut done.", emits "cutter_sensor:no_filament" and kicks
    the unload timer, yet the deadline stays at 2: it is not moved into the
    future, by [event_delay] or otherwise. *)
Lemma unload_branch_reacts_without_moving_deadline :
  let env := Scenario.steady Scenario.idle in
  exists w',
    Klippy.cutter_sensor_callback env Scenario.cutter_sensor
      (Scenario.unload_filament true None false) false cutting_for_unload = (Ok tt, w')
    /\ trace w'
       = [ update_timer unextrude_to_sensor_timer (NEVER env);
           respond_info "[CUTTER] Cut done.";
           send_event "cutter_sensor:no_filament";
           respond_info "Pulling filament out of the printer wait....";
           update_timer unextrude_timer (NOW env);
           run_script_from_command ("G90" ^^ nl ^^ "M400");
           run_script_from_command ("M83" ^^ nl ^^ "M400");
           run_script_from_command ("G92 E0.0" ^^ nl ^^ "M400") ]
    /\ is_cutting (cutter w') = false
    /\ min_event_systime (cutter w') = 2
    /\ ~ monotonic (readings env (epoch w') (trace w')) < min_event_systime (cutter w').
Proof.
  cbv zeta. eexists. split; [vm_compute; reflexivity|].
  split; [reflexivity|]. split; [reflexivity|]. split; [reflexivity|].
  vm_compute. discriminate.
Qed.

(** ** The pulse budget of an unload *)


Lemma Qltb_irrefl (a : Q) : Qltb a a = false.
Proof.
  unfold Qltb. apply negb_false_iff, Qle_bool_iff, Qle_refl.
Qed.

Section PulseBudget.
Variable env : Env.
Variable c : CutterSensor.Config.
Variable u : UnloadFilament.Config.
Variable fuel : nat.
Variable N : Z.
Hypothesis budget : UnloadFilament.timeout u = Some N.
Hypothesis connected : UnloadFilament.toolhead u = true.
Hypothesis speed_nonzero : Qeq_bool (UnloadFilament.unload_speed u) 0 = false.
Hypothesis nothing_raises : forall n h a, raises env n h a = None.
Hypothesis clock_below_never :
  forall n h, monotonic (readings env n h) + 10 / UnloadFilament.unload_speed u < NEVER env.

Local Abbreviation fire := (Klippy.dispatch env c u fuel (Klippy.timer unextrude_timer)).







End PulseBudget.



(** ** What an [UNLOAD_FILAMENT] command can call *)

(** Settles one assignment or call against [calls_only]. *)
Ltac calls_only_leaf :=
  first [ apply calls_only_silent; reflexivity
        | eexists; split; [reflexivity | reflexivity] ].

(** The temperature wait only talks to the console and pauses. *)
Lemma wait_for_temperature_keeps env R `{Frame R} :
  (forall w, R w (log (respond_info "Waiting for temperature to stabilize.") w)) ->
  (forall q w, R w (log (reactor_pause q) w)) ->
  forall polls temp eventtime,
    keeps R (CutterSensor.wait_for_temperature env polls temp eventtime).
Proof.
  intros R1 R2. induction polls as [|polls IH]; intros temp eventtime; cbn.
  - keeps_with fail.
  - keeps_with ltac:(first [apply R1 | apply R2]). apply IH.
Qed.

Lemma wait_for_temperature_calls_only env P :
  P (respond_info "Waiting for temperature to stabilize.") = true ->
  (forall q, P (reactor_pause q) = true) ->
  forall polls temp eventtime,
    keeps (calls_only P) (CutterSensor.wait_for_temperature env polls temp eventtime).
Proof.
  intros P1 P2.
  apply wait_for_temperature_keeps; try typeclasses eauto; intros;
    now apply calls_only_log.
Qed.

Ltac unfold_cutter_methods :=
  unfold Klippy.cut, CutterSensor.cut, CutterSensor.home_needed,
    CutterSensor.heat_and_wait, CutterSensor.move_to_bucket,
    CutterSensor.move_extruder_mm, CutterSensor.move_to_cutter_pos,
    CutterSensor.cut_move, CutterSensor.move_back, CutterSensor.on_toolhead,
    CutterSensor.assign_is_cutting, Calls.reactor_update_timer,
    Calls.reactor_register_callback.

Ltac unfold_unload_methods :=
  unfold Klippy.cmd_UNLOAD_FILAMENT, UnloadFilament.cmd_UNLOAD_FILAMENT,
    UnloadFilament.home_needed, UnloadFilament.save_state,
    UnloadFilament.disable_sensors, UnloadFilament.heat_and_wait,
    UnloadFilament.on_toolhead, UnloadFilament.get_unload_started,
    UnloadFilament.assign_unload_started, UnloadFilament.assign_unextrude_count,
    Calls.reactor_update_timer, Calls.reactor_register_callback.

Lemma cut_calls_only env c fuel P return_last_pos off_heaters temp :
  (forall a, never_by_cut a = false -> P a = true) ->
  keeps (calls_only P) (Klippy.cut env c fuel return_last_pos off_heaters temp).
Proof.
  intros HP.
  assert (Hw := wait_for_temperature_calls_only env P
                  (HP (respond_info "Waiting for temperature to stabilize.") eq_refl)
                  (fun q => HP (reactor_pause q) eq_refl)).
  unfold_cutter_methods.
  keeps_with ltac:(first [ apply calls_only_silent; reflexivity
                         | apply calls_only_log; apply HP; reflexivity
                         | eexists; split; [reflexivity | cbn; now rewrite HP] ]).
  all: apply Hw.
Qed.

(** Whatever the machine does, an [UNLOAD_FILAMENT] only makes calls of
    [unload_call]: a cut is delegated only when a cutter is configured,
    the pulse timer is armed only when there is no cutter and a budget. *)
Lemma cmd_UNLOAD_FILAMENT_calls_only env c u fuel gcmd :
  keeps (calls_only (unload_call (UnloadFilament.cutter_object u)
                       (negb (UnloadFilament.cutter_object u)
                        && is_some (UnloadFilament.timeout u))))
        (Klippy.cmd_UNLOAD_FILAMENT env c u fuel gcmd).
Proof.
  unfold_unload_methods.
  destruct (UnloadFilament.cutter_object u), (UnloadFilament.timeout u);
    cbn [negb andb is_some when];
    match goal with
    | |- keeps ?R _ =>
        assert (Hcut : forall x y z, keeps R (Klippy.cut env c fuel x y z))
          by (intros; apply cut_calls_only;
              intros a E; destruct a; cbn in *;
              try reflexivity; try discriminate E; try (now rewrite E);
              match goal with t : Timer |- _ => destruct t end;
              try reflexivity; discriminate E)
    end;
    revert Hcut; generalize (Klippy.cut env c fuel); intros cutter_cut Hcut;
    keeps_with calls_only_leaf.
Qed.

Lemma forallb_existsb_false {A} (P Q : A -> bool) (l : list A) :
  (forall a, P a = true -> Q a = false) ->
  forallb P l = true -> existsb Q l = false.
Proof.
  intros HPQ. induction l as [|a l IH]; cbn; [reflexivity|].
  intros H. apply andb_prop in H. destruct H as [Ha Hl].
  now rewrite (HPQ a Ha), (IH Hl).
Qed.

Lemma bind_ok {A B} (m : M A) (k : A -> M B) w b w' :
  bind m k w = (Ok b, w') ->
  exists a w1, m w = (Ok a, w1) /\ k a w1 = (Ok b, w').
Proof.
  unfold bind. destruct (m w) as [[a | e |] w1]; intros E; try discriminate E.
  eauto.
Qed.

Lemma try_except_reraise_ok {A} (m : M A) (e' : Exn) w a w' :
  try_except m (fun _ => raise e') w = (Ok a, w') -> m w = (Ok a, w').
Proof.
  unfold try_except, raise. destruct (m w) as [[x | e |] w1]; intros E;
    try discriminate E; exact E.
Qed.

(** Unrolls a sequence of calls that returned normally into its steps. *)
Ltac invert_ok H :=
  repeat (apply bind_ok in H;
          let a := fresh "a" in
          let w := fresh "w" in
          let E := fresh "E" in
          destruct H as (a & w & E & H)).

(** ** The extraction strategy of an unload *)

(** An [UNLOAD_FILAMENT] that runs to its end, step by step. *)
Lemma cmd_UNLOAD_FILAMENT_phases env c u fuel gcmd temp w w' :
  TEMPERATURE gcmd = inl temp ->
  UnloadFilament.toolhead u = true ->
  truthy (unload_started (unload w)) = false ->
  Klippy.cmd_UNLOAD_FILAMENT env c u fuel gcmd w = (Ok tt, w') ->
  exists w1 w2,
    calls_only before_extraction w w1
    /\ unload_started (unload w1) = Some true
    /\ (if UnloadFilament.cutter_object u then
          Klippy.cut env c fuel false false temp
            (log (register_callback (cb_cut temp false false)) w1) = (Ok tt, w2)
        else if is_some (UnloadFilament.timeout u) then w2 = start_pulses env u w1
        else w2 = w1)
    /\ w' = start_verification env u w2.
Proof.
  intros Ht Hc Hs H.
  unfold Klippy.cmd_UNLOAD_FILAMENT, UnloadFilament.cmd_UNLOAD_FILAMENT in H.
  rewrite Ht, Hc in H. cbn [gcmd_get negb] in H.
  apply bind_ok in H. destruct H as (t & w0 & E0 & H). inversion E0; subst t w0; clear E0.
  apply try_except_reraise_ok in H.
  apply bind_ok in H. destruct H as (s & w0 & E0 & H).
  unfold UnloadFilament.get_unload_started, bind, get, ret in E0.
  inversion E0; subst s w0; clear E0. rewrite Hs in H.
  invert_ok H.
  exists w13, w15.
  assert (K : forall A (m : M A) a b r,
             keeps (calls_only before_extraction) m -> m a = (r, b) ->
             calls_only before_extraction a b) by (intros A m x y r Hm; apply Hm).
  assert (S : forall A (m : M A) a b r,
             keeps same_unload_started m -> m a = (r, b) ->
             unload_started (unload b) = unload_started (unload a))
    by (intros A m x y r Hm; apply Hm).
  split; [|split; [|split]].
  - repeat match goal with
           | E : _ ?a = (Ok _, ?b) |- _ =>
               assert (calls_only before_extraction a b)
                 by (eapply K; [| exact E]; unfold_unload_methods;
                     keeps_with calls_only_leaf);
               clear E
           end.
    repeat match goal with
           | H1 : calls_only ?P ?a ?b, H2 : calls_only ?P ?b ?c |- _ =>
               pose proof (frame_trans a b c H1 H2); clear H1 H2
           end.
    assumption.
  - assert (H4 : unload_started (unload w4) = Some true)
      by (unfold UnloadFilament.assign_unload_started, modify in E3;
          inversion E3; reflexivity).
    repeat match goal with
           | E : _ ?a = (Ok _, ?b) |- _ =>
               assert (unload_started (unload b) = unload_started (unload a))
                 by (eapply S; [| exact E]; unfold_unload_methods;
                     keeps_with ltac:(reflexivity));
               clear E
           end.
    congruence.
  - destruct (UnloadFilament.cutter_object u); cbn [when negb andb] in E13, E14.
    + apply bind_ok in E13. destruct E13 as ([] & wr & Er & E13).
      inversion Er; subst wr. inversion E14; subst w15.
      destruct a13. exact E13.
    + inversion E13; subst w14.
      destruct (UnloadFilament.timeout u); cbn [when is_some] in E14 |- *.
      * unfold start_pulses. unfold Calls.reactor_update_timer, bind, modify in E14.
        destruct (UnloadFilament.filament_flow_sensor_object u); cbn in E14;
          inversion E14; reflexivity.
      * inversion E14; reflexivity.
  - unfold start_verification.
    destruct (UnloadFilament.filament_switch_sensor_object u); cbn in H;
      inversion H; reflexivity.
Qed.

Lemma bind_cases {A B} (m : M A) (k : A -> M B) w r w' :
  bind m k w = (r, w') ->
  (exists a w1, m w = (Ok a, w1) /\ k a w1 = (r, w'))
  \/ (exists r0, m w = (r0, w') /\ is_ok r0 = false).
Proof.
  unfold bind. destruct (m w) as [[a | e |] w1]; intros E.
  - left. eauto.
  - right. inversion E; subst. eauto.
  - right. inversion E; subst. eauto.
Qed.

Lemma try_except_reraise_cases {A} (m : M A) (e' : Exn) w r w' :
  try_except m (fun _ => raise e') w = (r, w') ->
  exists r0, m w = (r0, w') /\ is_ok r0 = is_ok r.
Proof.
  unfold try_except, raise. destruct (m w) as [[x | e |] w1]; intros E;
    inversion E; subst; eauto.
Qed.

(** Turns every step in the context into what it may have called, and
    links the steps. *)
Ltac chain_calls P :=
  repeat match goal with
         | E : _ ?a = (_, ?b) |- _ =>
             assert (calls_only P a b)
               by (refine ((_ : keeps (calls_only P) _) a _ b E);
                   unfold_unload_methods; keeps_with calls_only_leaf);
             clear E
         end;
  repeat match goal with
         | H1 : calls_only ?P ?a ?b, H2 : calls_only ?P ?b ?c |- _ =>
             pose proof (frame_trans a b c H1 H2); clear H1 H2
         end.

(** The switch-sensor poll is armed by the last step of the command: an
    [UNLOAD_FILAMENT] that does not run to its end, because a step raised
    or the delegated cut is still waiting, has not armed it. *)
Lemma cmd_UNLOAD_FILAMENT_verifies_last env c u fuel gcmd w r w' :
  Klippy.cmd_UNLOAD_FILAMENT env c u fuel gcmd w = (r, w') ->
  is_ok r = false ->
  calls_only before_verification w w'.
Proof.
  intros H Hr.
  assert (Hcut : forall x y z,
             keeps (calls_only before_verification) (Klippy.cut env c fuel x y z)).
  { intros; apply cut_calls_only. intros a E; destruct a; try reflexivity.
    destruct t; try reflexivity; discriminate E. }
  unfold Klippy.cmd_UNLOAD_FILAMENT, UnloadFilament.cmd_UNLOAD_FILAMENT in H.
  apply bind_cases in H. destruct H as [(temp & w0 & E0 & H) | (r0 & E & _)].
  2: { destruct (TEMPERATURE gcmd); inversion E; apply frame_refl. }
  destruct (TEMPERATURE gcmd); inversion E0; subst; clear E0.
  destruct (UnloadFilament.toolhead u) eqn:Hc; cbn [negb] in H.
  2: { inversion H; subst. discriminate Hr. }
  apply try_except_reraise_cases in H. destruct H as (r0 & H & Hr0).
  rewrite Hr in Hr0. clear Hr r.
  apply bind_cases in H. destruct H as [(s & w1 & E0 & H) | (r1 & E & Hr1)].
  2: { inversion E; subst. discriminate Hr1. }
  inversion E0; subst s w1; clear E0.
  destruct (truthy (unload_started (unload w0))).
  { inversion H; subst. discriminate Hr0. }
  repeat (apply bind_cases in H;
          let a := fresh "a" in
          let w := fresh "w" in
          let E := fresh "E" in
          let r := fresh "r" in
          let F := fresh "F" in
          destruct H as [(a & w & E & H) | (r & E & F)];
          [| chain_calls before_verification; assumption]).
  exfalso. destruct (UnloadFilament.filament_switch_sensor_object u); cbn in H;
    inversion H; subst; discriminate Hr0.
Qed.

(** C6, as the code has it.  An [UNLOAD_FILAMENT] selects at most one
    extraction strategy, in priority order.  Whatever happens, it never
    delegates a cut other than [cut(return_last_pos=False,
    off_heaters=False)]; with a cutter configured it never arms the pulse
    timer; without a cutter it never delegates a cut; with neither cutter nor
    budget it starts neither; and unless it runs to its end (no step raised,
    the delegated cut returned) it does not arm the switch-sensor poll.
    When it runs to its end, then up to the end of the heating no timer was
    armed and no callback registered; after that, with a cutter, the cut
    was registered and had returned before the switch-sensor poll was
    armed; without a cutter and with a budget, the pulse timer was armed;
    with neither, nothing; the switch-sensor poll, if any, is armed last. *)
Theorem unload_selects_at_most_one_strategy :
  forall env c u fuel gcmd w,
    (exists l,
        trace (snd (Klippy.cmd_UNLOAD_FILAMENT env c u fuel gcmd w)) = trace w ++ l
        /\ existsb starts_other_cut l = false
        /\ (UnloadFilament.cutter_object u = true -> existsb starts_pulses l = false)
        /\ (UnloadFilament.cutter_object u = false -> existsb starts_cut l = false)
        /\ (UnloadFilament.cutter_object u = false ->
            UnloadFilament.timeout u = None -> existsb starts_pulses l = false)
        /\ (is_ok (fst (Klippy.cmd_UNLOAD_FILAMENT env c u fuel gcmd w)) = false ->
            existsb arms_verification l = false))
    /\ (forall temp w',
        TEMPERATURE gcmd = inl temp ->
        UnloadFilament.toolhead u = true ->
        truthy (unload_started (unload w)) = false ->
        Klippy.cmd_UNLOAD_FILAMENT env c u fuel gcmd w = (Ok tt, w') ->
        exists w1 w2,
          calls_only before_extraction w w1
          /\ unload_started (unload w1) = Some true
          /\ (if UnloadFilament.cutter_object u then
                Klippy.cut env c fuel false false temp
                  (log (register_callback (cb_cut temp false false)) w1) = (Ok tt, w2)
              else if is_some (UnloadFilament.timeout u) then w2 = start_pulses env u w1
              else w2 = w1)
          /\ w' = start_verification env u w2).
Proof.
  intros env c u fuel gcmd w. split.
  - destruct (Klippy.cmd_UNLOAD_FILAMENT env c u fuel gcmd w) as [r w'] eqn:E.
    pose proof (cmd_UNLOAD_FILAMENT_verifies_last _ _ _ _ _ _ _ _ E) as Hlast.
    apply cmd_UNLOAD_FILAMENT_calls_only in E. destruct E as (l & El & Fl).
    exists l. cbn [snd fst]. split; [exact El|].
    split; [|split; [|split; [|split]]].
    + revert Fl. apply forallb_existsb_false.
      intros [] Ha; try reflexivity.
      destruct cb; try reflexivity. cbn in Ha |- *.
      destruct return_last_pos, off_heaters; try reflexivity;
        rewrite ?andb_false_r in Ha; discriminate Ha.
    + intros Hc. rewrite Hc in Fl. revert Fl. apply forallb_existsb_false.
      intros [] Ha; try reflexivity. destruct t; try reflexivity. discriminate Ha.
    + intros Hc. rewrite Hc in Fl. revert Fl. apply forallb_existsb_false.
      intros [] Ha; try reflexivity. destruct cb; try reflexivity. discriminate Ha.
    + intros Hc Ht. rewrite Hc, Ht in Fl. revert Fl. apply forallb_existsb_false.
      intros [] Ha; try reflexivity. destruct t; try reflexivity. discriminate Ha.
    + intros Hr. destruct (Hlast Hr) as (l' & El' & Fl').
      rewrite El in El'. apply app_inv_head in El'. subst l'.
      revert Fl'. apply forallb_existsb_false.
      intros a Ha. unfold before_verification in Ha. now apply negb_true_iff.
  - intros temp w'. apply cmd_UNLOAD_FILAMENT_phases.
Qed.

Lemma unload_selects_at_most_one_strategy_witness :
  exists w1 w2,
    calls_only before_extraction (Klippy.tick Scenario.ready) w1
    /\ unload_started (unload w1) = Some true
    /\ Klippy.cut (Scenario.steady Scenario.idle) Scenario.cutter_sensor 3 false false 250
         (log (register_callback (cb_cut 250 false false)) w1) = (Ok tt, w2)
    /\ snd (Klippy.cmd_UNLOAD_FILAMENT (Scenario.steady Scenario.idle) Scenario.cutter_sensor
              with_cutter_only 3 Scenario.plain (Klippy.tick Scenario.ready))
       = start_verification (Scenario.steady Scenario.idle) with_cutter_only w2.
Proof.
  apply (proj2 (unload_selects_at_most_one_strategy (Scenario.steady Scenario.idle)
                  Scenario.cutter_sensor with_cutter_only 3 Scenario.plain
                  (Klippy.tick Scenario.ready)) 250).
  - reflexivity.
  - reflexivity.
  - reflexivity.
  - vm_compute. reflexivity.
Defined.

(** C6, counterexample.  Neither a cutter nor a [timeout] is configured
    (both options default to [None]).  The unload proceeds: it saves the
    state, sets the guard and heats, and then selects no extraction
    strategy at all: no cut is delegated and no timer is armed.  And with
    a cutter configured, both strategies are started within one unload:
    the command delegates the cut, and when the cutter's sensor then
    reports the filament gone, [handle_cutter_fnp] arms the pulse timer of
    the unload that is still running. *)
Lemma unload_can_select_no_strategy_or_both :
  let env := Scenario.steady Scenario.idle in
  let u := Scenario.unload_filament false None false in
  (UnloadFilament.cutter_object u = false
   /\ UnloadFilament.timeout u = None
   /\ exists w',
       Klippy.cmd_UNLOAD_FILAMENT env Scenario.cutter_sensor u 3 Scenario.plain
         (Klippy.tick Scenario.ready) = (Ok tt, w')
       /\ trace w'
          = [ run_script_from_command ("SAVE_GCODE_STATE NAME=_UNLOAD_STATE" ^^ nl ^^ "M400");
              send_event "unload_filament:start";
              respond_info "[UNLOAD FILAMENT] Start";
              run_script_from_command ("G91" ^^ nl ^^ "M400");
              run_script_from_command ("M83" ^^ nl ^^ "M400");
              set_temperature 250 false;
              set_temperature 250 true;
              wait_moves ]
       /\ unload_started (unload w') = Some true
       /\ existsb starts_cut (trace w') = false
       /\ existsb starts_pulses (trace w') = false
       /\ timers w' = Scenario.all_never
       /\ callbacks w' = [])
  /\ (exists w',
       Klippy.run env Scenario.cutter_sensor with_cutter_only 3
         [Klippy.UNLOAD_FILAMENT Scenario.plain; Klippy.button false] Scenario.ready
       = Some (Ok tt, w')
       /\ unload_started (unload w') = Some true
       /\ existsb starts_cut (trace w') = true
       /\ existsb starts_pulses (trace w') = true
       /\ Klippy.armed env unextrude_timer w' = true).
Proof.
  cbv zeta. split.
  - split; [reflexivity|]. split; [reflexivity|].
    eexists. split; [vm_compute; reflexivity|]. repeat split.
  - eexists. split; [vm_compute; reflexivity|]. repeat split.
Qed.

(** ** Unloading and the print in progress *)















(** ** Paths that leave an operation half done *)

(** Nothing in [cut] clears [is_cutting]: however a call ends, by a
    return, by an exception or still waiting for the temperature, the
    guard is set when it ends. *)
Lemma cut_leaves_guard_set env c fuel return_last_pos off_heaters temp w :
  is_cutting (cutter (snd (Klippy.cut env c fuel return_last_pos off_heaters temp w))) = true.
Proof.
  unfold Klippy.cut, CutterSensor.cut. unfold bind at 1. unfold get.
  destruct (is_cutting (cutter w)) eqn:Hc; [exact Hc|].
  unfold bind at 1. unfold CutterSensor.assign_is_cutting at 1. unfold modify.
  match goal with
  | |- is_cutting (cutter (snd (?m ?w0))) = true =>
      assert (K : keeps same_is_cutting m);
      [| destruct (m w0) as [r w'] eqn:E; apply K in E; cbn [snd]; rewrite E; reflexivity]
  end.
  assert (Hw := wait_for_temperature_keeps env same_is_cutting
                  (fun w => eq_refl) (fun q w => eq_refl)).
  unfold_cutter_methods.
  keeps_with ltac:(reflexivity).
  all: apply Hw.
Qed.

(** Nothing in [cmd_UNLOAD_FILAMENT] clears [unload_started]: the command
    leaves it as it found it or leaves it set. *)
Lemma cmd_UNLOAD_FILAMENT_never_clears_guard env c u fuel gcmd :
  keeps guard_kept_or_set (Klippy.cmd_UNLOAD_FILAMENT env c u fuel gcmd).
Proof.
  assert (Hcut : forall x y z, keeps guard_kept_or_set (Klippy.cut env c fuel x y z)).
  { intros x y z.
    assert (Hw := wait_for_temperature_keeps env guard_kept_or_set
                    (fun w => or_introl eq_refl) (fun q w => or_introl eq_refl)).
    unfold_cutter_methods.
    keeps_with ltac:(left; reflexivity).
    all: apply Hw. }
  unfold_unload_methods.
  keeps_with ltac:(first [left; reflexivity | right; reflexivity]).
Qed.

(** C1, the code at the failing inputs.  [cut] sets [is_cutting] before it
    homes and never clears it: whatever the machine does, the guard is set
    when a call of [cut] ends (only the sensor callback clears it).  When
    the axes are still not homed after [home_needed], [cut] returns early
    with the guard set and no timer armed, and every later [cut] is turned
    away as "already cutting"; when homing raises, the guard is set as
    well.  [cmd_UNLOAD_FILAMENT] never clears [unload_started] either; it
    sets it before it heats, and a failing heater leaves it set. *)
Theorem guard_stays_set_on_early_exits :
  (forall env c fuel return_last_pos off_heaters temp w,
      is_cutting (cutter (snd (Klippy.cut env c fuel return_last_pos off_heaters temp w)))
      = true)
  /\ (forall env c u fuel gcmd w,
      guard_kept_or_set w (snd (Klippy.cmd_UNLOAD_FILAMENT env c u fuel gcmd w)))
  /\ (exists w',
      Klippy.cut (Scenario.steady z_not_homed) Scenario.cutter_sensor 3 false false 220
        Scenario.ready = (Ok tt, w')
      /\ trace w'
         = [ respond_info "Homing.";
             run_script_from_command ("G28" ^^ nl ^^ "M400");
             wait_moves;
             respond_info "[CUTTER] Printer needs to be homed for filament cutting." ]
      /\ is_cutting (cutter w') = true
      /\ timers w' = Scenario.all_never
      /\ Klippy.cut (Scenario.steady z_not_homed) Scenario.cutter_sensor 3 false false 220 w'
         = (Ok tt, log (respond_info "[CUTTER] Already cutting filament") w'))
  /\ (exists w',
      Klippy.cut homing_fails Scenario.cutter_sensor 3 false false 220 Scenario.ready
      = (Raise (CutterSensorError "Unable to home: No trigger on z after full movement"), w')
      /\ is_cutting (cutter w') = true)
  /\ (exists e w',
      Klippy.cmd_UNLOAD_FILAMENT heating_fails Scenario.cutter_sensor
        (Scenario.unload_filament false (Some 10%Z) false) 3 Scenario.plain Scenario.ready
      = (Raise e, w')
      /\ unload_started (unload w') = Some true).
Proof.
  split; [|split; [|split; [|split]]].
  - intros. apply cut_leaves_guard_set.
  - intros env c u fuel gcmd w.
    destruct (Klippy.cmd_UNLOAD_FILAMENT env c u fuel gcmd w) as [r w'] eqn:E.
    apply cmd_UNLOAD_FILAMENT_never_clears_guard in E. exact E.
  - eexists. split; [vm_compute; reflexivity|]. repeat split.
  - eexists. split; [vm_compute; reflexivity|]. reflexivity.
  - do 2 eexists. split; [vm_compute; reflexivity|]. reflexivity.
Qed.

(** The command itself never restores: whatever path it takes, none of
    its calls is a RESTORE.  [restore_state] is reached through
    [unload_end] only. *)
Lemma cmd_UNLOAD_FILAMENT_never_restores env c u fuel gcmd :
  keeps (calls_only (fun a => negb (is_restore a)))
        (Klippy.cmd_UNLOAD_FILAMENT env c u fuel gcmd).
Proof.
  assert (Hcut : forall x y z,
             keeps (calls_only (fun a => negb (is_restore a)))
                   (Klippy.cut env c fuel x y z)).
  { intros x y z.
    assert (Hw := wait_for_temperature_calls_only env (fun a => negb (is_restore a))
                    eq_refl (fun q => eq_refl)).
    unfold_cutter_methods.
    keeps_with calls_only_leaf.
    all: apply Hw. }
  unfold_unload_methods.
  keeps_with calls_only_leaf.
Qed.

(** C8, the code at the failing inputs.  The command itself never
    restores, on any path; only [unload_end] does.  On a dual-carriage
    printer [UNLOAD_FILAMENT] without a TOOLHEAD parameter saves both
    states, disables the switch sensor and then raises at
    [gcmd.get("TOOLHEAD")]: two saves, no restore, the guard still clear,
    so that [unload_end] is a no-op and nothing restores the snapshot.  A
    heater failure after the guard is set also leaves the save without its
    restore.  On the path that completes, each save is matched by one
    restore. *)
Theorem saved_state_not_restored_on_error :
  (forall env c u fuel gcmd w,
      exists l,
        trace (snd (Klippy.cmd_UNLOAD_FILAMENT env c u fuel gcmd w)) = trace w ++ l
        /\ count is_restore l = 0%nat)
  /\ (exists e w',
      Klippy.cmd_UNLOAD_FILAMENT (Scenario.steady Scenario.idle) Scenario.cutter_sensor
        idex_unload 3 Scenario.plain Scenario.ready = (Raise e, w')
      /\ trace w'
         = [ run_script_from_command
               ("SAVE_DUAL_CARRIAGE_STATE NAME=unload_carriage_state" ^^ nl ^^ "M400");
             run_script_from_command ("SAVE_GCODE_STATE NAME=_UNLOAD_STATE" ^^ nl ^^ "M400");
             set_sensor_enabled switch_sensor 0;
             respond_info "filament switch sensor is not enabled" ]
      /\ count is_save (trace w') = 2%nat
      /\ count is_restore (trace w') = 0%nat
      /\ unload_started (unload w') = None
      /\ timers w' = Scenario.all_never
      /\ callbacks w' = []
      /\ Klippy.unload_end (Scenario.steady Scenario.idle) idex_unload w' = (Ok false, w'))
  /\ (exists e w',
      Klippy.cmd_UNLOAD_FILAMENT heating_fails Scenario.cutter_sensor
        (Scenario.unload_filament false (Some 10%Z) false) 3 Scenario.plain Scenario.ready
      = (Raise e, w')
      /\ count is_save (trace w') = 1%nat
      /\ count is_restore (trace w') = 0%nat
      /\ timers w' = Scenario.all_never
      /\ callbacks w' = [])
  /\ (exists w',
      Klippy.run (Scenario.steady Scenario.idle) Scenario.cutter_sensor budget_of_five 3
        (Klippy.UNLOAD_FILAMENT Scenario.plain :: repeat (Klippy.timer unextrude_timer) 7)
        Scenario.ready = Some (Ok tt, w')
      /\ unload_started (unload w') = Some false
      /\ count is_save (trace w') = 1%nat
      /\ count is_restore (trace w') = 1%nat).
Proof.
  split; [|split; [|split]].
  - intros env c u fuel gcmd w.
    destruct (Klippy.cmd_UNLOAD_FILAMENT env c u fuel gcmd w) as [r w'] eqn:E.
    apply cmd_UNLOAD_FILAMENT_never_restores in E. destruct E as (l & El & Fl).
    exists l. split; [exact El|]. clear El. unfold count.
    induction l as [|a l IH]; [reflexivity|].
    cbn in Fl |- *. apply andb_prop in Fl. destruct Fl as [Fa Fl].
    apply negb_true_iff in Fa. rewrite Fa. auto.
  - do 2 eexists. split; [vm_compute; reflexivity|]. repeat split.
  - do 2 eexists. split; [vm_compute; reflexivity|]. repeat split.
  - eexists. split; [vm_compute; reflexivity|]. repeat split.
Qed.

(** * Further properties *)

(** ** Waiting for the temperature *)

Lemma wait_for_temperature_ends env polls : forall temp eventtime w r w',
  CutterSensor.wait_for_temperature env polls temp eventtime w = (r, w') ->
  match r with
  | Ok _ =>
      is_shutdown (readings env (epoch w') (trace w')) = true
      \/ within_5 temp (heater_temp (readings env (epoch w') (trace w')))
  | Raise _ => False
  | Polling => True
  end.
Proof.
  induction polls as [|polls IH]; intros temp eventtime w r w';
    cbn [CutterSensor.wait_for_temperature];
    unfold bind, Calls.read, Calls.emit, modify, ret.
  - destruct (is_shutdown (readings env (epoch w) (trace w))) eqn:Es;
      intros E; inversion E; subst; auto.
  - destruct (is_shutdown (readings env (epoch w) (trace w))) eqn:Es.
    + intros E; inversion E; subst; auto.
    + match goal with
      | |- context [if ?b then _ else _] => destruct b eqn:Er
      end.
      * intros E; inversion E; subst. right.
        apply andb_prop in Er. destruct Er as [E1 E2].
        split; now apply Qle_bool_iff.
      * apply IH.
Qed.

(** X1.  [heat_and_wait] with [wait=True] returns normally only when the
    printer has shut down or the measured temperature is within 5 degrees
    of the target; whatever it raises is a [CutterSensorError] that starts
    with "Error heating extruder: "; and with [wait=False] it does not
    poll: with a toolhead it makes the one [set_temperature] call, which
    never waits. *)
Theorem heat_and_wait_returns_at_temperature :
  forall env c fuel temp w,
    (forall w',
        CutterSensor.heat_and_wait env c fuel temp true w = (Ok tt, w') ->
        is_shutdown (readings env (epoch w') (trace w')) = true
        \/ within_5 temp (heater_temp (readings env (epoch w') (trace w'))))
    /\ (forall wait e w',
        CutterSensor.heat_and_wait env c fuel temp wait w = (Raise e, w') ->
        exists cause, e = CutterSensorError ("Error heating extruder: " ^^ exn_str cause))
    /\ (CutterSensor.toolhead c = true ->
        trace (snd (CutterSensor.heat_and_wait env c fuel temp false w))
        = trace w ++ [set_temperature temp false]).
Proof.
  intros env c fuel temp w. split; [|split].
  - intros w' E. unfold CutterSensor.heat_and_wait in E.
    unfold try_except in E.
    match type of E with
    | match ?m w with _ => _ end = _ => destruct (m w) as [[[]| e |] w1] eqn:Em
    end; try discriminate E.
    inversion E; subst w1; clear E.
    apply bind_ok in Em. destruct Em as (r & w0 & E0 & Em).
    apply bind_ok in Em. destruct Em as ([] & w1 & E1 & Em).
    apply (wait_for_temperature_ends env fuel temp _ _ _ _ Em).
  - intros wait e w' E. unfold CutterSensor.heat_and_wait, try_except in E.
    match type of E with
    | match ?m w with _ => _ end = _ => destruct (m w) as [[[]| e0 |] w1]
    end; try discriminate E.
    inversion E; subst. exists e0. reflexivity.
  - intros Ht. unfold CutterSensor.heat_and_wait, CutterSensor.on_toolhead,
      try_except, bind, Calls.read, Calls.call, ret. rewrite Ht.
    destruct (raises env (epoch w) (trace w) (set_temperature temp false)); reflexivity.
Qed.

Lemma heat_and_wait_returns_at_temperature_witness :
  trace (snd (CutterSensor.heat_and_wait (Scenario.steady Scenario.idle)
                Scenario.cutter_sensor 3 0 false Scenario.ready))
  = trace Scenario.ready ++ [set_temperature 0 false].
Proof.
  apply (proj2 (proj2 (heat_and_wait_returns_at_temperature (Scenario.steady Scenario.idle)
                         Scenario.cutter_sensor 3 0 Scenario.ready))).
  reflexivity.
Defined.

(** ** Routing of a sensor transition *)

Ltac count_calls :=
  cbn; unfold count; rewrite ?filter_app, ?length_app; cbn; lia.

(** The callback with the topic tests of [send_event] settled. *)
Ltac unfold_routing :=
  unfold_callback; unfold try_except, Qltb;
  change (String.eqb "cutter_sensor:filament_present" "cutter_sensor:no_filament")
    with false;
  change (String.eqb "cutter_sensor:no_filament" "cutter_sensor:no_filament")
    with true;
  rewrite ?andb_false_r, ?andb_true_r.

(** X2.  One transition leads to at most one notification on the event
    bus and at most one scheduled reaction, and a reaction is never
    scheduled without its notification. *)
Theorem callback_reacts_at_most_once :
  forall env c u state w,
    let w' := snd (Klippy.cutter_sensor_callback env c u state w) in
    (count is_notification (trace w') <= count is_notification (trace w) + 1)%nat
    /\ (callbacks w' = callbacks w
        \/ exists cb, callbacks w' = callbacks w ++ [cb]
                      /\ count is_notification (trace w')
                         = S (count is_notification (trace w))).
Proof.
  intros env c u state w. cbv zeta.
  unfold_routing.
  split_paths; (split; [count_calls |]);
    first [ left; reflexivity
          | right; eexists; split; [reflexivity | count_calls] ].
Qed.

Lemma accepted_tests env state w :
  accepted env state w ->
  Bool.eqb state (filament_present (cutter w)) = false
  /\ Qle_bool (min_event_systime (cutter w))
       (monotonic (readings env (epoch w) (trace w))) = true.
Proof.
  intros [Hs Hq]. split.
  - destruct (Bool.eqb state (filament_present (cutter w))) eqn:E; [|reflexivity].
    apply Bool.eqb_prop in E. contradiction.
  - destruct (Qle_bool _ _) eqn:E; [reflexivity|].
    exfalso. apply Hq. apply Qltb_lt. unfold Qltb. now rewrite E.
Qed.

(** X3.  Outside a load or an unload, a transition that is looked at still
    leads to nothing but the three normalising scripts when the two
    print-state sources disagree about a runout, when filament is inserted
    while either source reports printing, or when no macro is configured
    for it: the level is recorded, no notification is sent, nothing is
    scheduled, the deadline, the guard and the timers stay as they are. *)
Theorem transition_without_reaction :
  forall env c u state w,
    accepted env state w ->
    load_or_unload_started env c w = false ->
    let r := readings env (epoch w) (trace w) in
    (state = false /\ idle_timeout_printing r <> print_stats_printing r)
    \/ (state = true /\ (idle_timeout_printing r = true \/ print_stats_printing r = true))
    \/ (state = true /\ CutterSensor.insert_gcode c = None)
    \/ (state = false /\ CutterSensor.runout_gcode c = None) ->
    let w' := snd (Klippy.cutter_sensor_callback env c u state w) in
    cutter w' = set_filament_present state (cutter w)
    /\ unload w' = unload w
    /\ timers w' = timers w
    /\ callbacks w' = callbacks w
    /\ count is_notification (trace w') = count is_notification (trace w).
Proof.
  intros env c u state w Ha Hl. cbv zeta.
  destruct (accepted_tests env state w Ha) as [Hs Hq].
  unfold load_or_unload_started in Hl.
  unfold idle_timeout_printing, print_stats_printing.
  intros Hcase.
  unfold_routing. rewrite Hs. cbn. rewrite Hq. cbn. rewrite Hl.
  destruct Hcase as [[-> Hd] | [[-> Hp] | [[-> Hn] | [-> Hn]]]]; cbn;
    try rewrite Hn; rewrite ?andb_false_r; cbn.
  all: destruct (String.eqb (idle_timeout_state (readings env (epoch w) (trace w)))
                   "Printing"),
         (truthy (option_map (fun s => String.eqb s "Printing")
                    (print_stats_state (readings env (epoch w) (trace w)))));
    cbn in *;
    try congruence; try (destruct Hp; discriminate).
  all: split_paths; (repeat split; [reflexivity .. | count_calls]).
Qed.

Lemma transition_without_reaction_witness :
  let w' := snd (Klippy.cutter_sensor_callback (Scenario.steady sources_disagree)
                   Scenario.cutter_sensor (Scenario.unload_filament false None false)
                   false (Klippy.tick Scenario.ready)) in
  cutter w' = set_filament_present false (cutter (Klippy.tick Scenario.ready))
  /\ unload w' = unload (Klippy.tick Scenario.ready)
  /\ timers w' = timers (Klippy.tick Scenario.ready)
  /\ callbacks w' = callbacks (Klippy.tick Scenario.ready)
  /\ count is_notification (trace w')
     = count is_notification (trace (Klippy.tick Scenario.ready)).
Proof.
  apply (transition_without_reaction (Scenario.steady sources_disagree)
           Scenario.cutter_sensor (Scenario.unload_filament false None false)
           false (Klippy.tick Scenario.ready)).
  - split; [discriminate | vm_compute; discriminate].
  - reflexivity.
  - left. split; [reflexivity | discriminate].
Defined.

(** X4.  A transition to "absent" that is looked at stops a cut in
    progress whenever a load or an unload is running, or the printer is
    idle by both sources and a runout macro is configured: the guard is
    cleared and the cutter's pulse timer is parked at [NEVER].  The
    mid-print runout branch leaves the guard and that timer alone. *)
Theorem absent_transition_stops_cut :
  forall env c u w,
    accepted env false w ->
    let r := readings env (epoch w) (trace w) in
    let w' := snd (Klippy.cutter_sensor_callback env c u false w) in
    (load_or_unload_started env c w = true
     \/ (idle_timeout_printing r = false /\ print_stats_printing r = false
         /\ CutterSensor.runout_gcode c <> None) ->
     is_cutting (cutter w') = false
     /\ (is_cutting (cutter w) = true ->
         wake_unextrude_to_sensor (timers w') = NEVER env
         /\ Klippy.armed env unextrude_to_sensor_timer w' = false))
    /\ (load_or_unload_started env c w = false ->
        idle_timeout_printing r = true -> print_stats_printing r = true ->
        is_cutting (cutter w') = is_cutting (cutter w)
        /\ wake_unextrude_to_sensor (timers w') = wake_unextrude_to_sensor (timers w)).
Proof.
  intros env c u w Ha. cbv zeta.
  destruct (accepted_tests env false w Ha) as [Hs Hq].
  unfold load_or_unload_started, idle_timeout_printing, print_stats_printing, Klippy.armed.
  unfold_routing. rewrite Hs. cbn. rewrite Hq. cbn.
  split.
  - intros [Hl | (H1 & H2 & H3)].
    + rewrite Hl. destruct (is_cutting (cutter w)) eqn:Hc; split_paths;
        (split; [cbn; first [reflexivity | exact Hc] | intros;
                 first [congruence | split; [reflexivity | apply Qltb_irrefl]]]).
    + rewrite H1, H2.
      destruct (CutterSensor.runout_gcode c); [|congruence].
      destruct (_ || _); destruct (is_cutting (cutter w)) eqn:Hc; split_paths;
        (split; [cbn; first [reflexivity | exact Hc] | intros;
                 first [congruence | split; [reflexivity | apply Qltb_irrefl]]]).
  - intros Hl H1 H2. rewrite Hl, H1, H2. cbn.
    split_paths; split; reflexivity.
Qed.

Lemma absent_transition_stops_cut_witness :
  let w := Klippy.tick cutting_for_unload in
  let w' := snd (Klippy.cutter_sensor_callback (Scenario.steady Scenario.idle)
                   Scenario.cutter_sensor (Scenario.unload_filament true None false)
                   false w) in
  is_cutting (cutter w') = false
  /\ wake_unextrude_to_sensor (timers w') = NEVER (Scenario.steady Scenario.idle).
Proof.
  cbv zeta.
  assert (Ha : accepted (Scenario.steady Scenario.idle) false
                 (Klippy.tick cutting_for_unload))
    by (split; [discriminate | vm_compute; discriminate]).
  destruct (proj1 (absent_transition_stops_cut (Scenario.steady Scenario.idle)
                     Scenario.cutter_sensor (Scenario.unload_filament true None false)
                     (Klippy.tick cutting_for_unload) Ha)
              (or_introl eq_refl)) as [Hg Ht].
  split; [exact Hg | exact (proj1 (Ht eq_refl))].
Defined.
(** ** The scheduled runout reaction *)

(** X5.  [_runout_event_handler] never leaves the temperature wait
    pending.  It raises only with [pause_on_runout] set, when pause_resume is
    missing or its pause command fails; the runout macro has then not been
    run and no attribute of the sensor has changed, the deadline included.
    When it returns, the pause command, the reactor pause of [pause_delay]
    and the macro, prefixed by PAUSE and followed by M400, were issued in
    that order and nothing else. *)
Theorem runout_handler_pauses_before_macro :
  forall env c eventtime w,
    let res := CutterSensor._runout_event_handler env c eventtime w in
    fst res <> Polling
    /\ (forall e, fst res = Raise e ->
        CutterSensor.runout_pause c = true
        /\ cutter (snd res) = cutter w
        /\ (trace (snd res) = trace w
            \/ trace (snd res) = trace w ++ [send_pause_command]))
    /\ (forall text, fst res = Ok tt -> CutterSensor.runout_gcode c = Some text ->
        trace (snd res)
        = trace w
          ++ (if CutterSensor.runout_pause c
              then [send_pause_command;
                    reactor_pause (eventtime + CutterSensor.pause_delay c)]
              else [])
          ++ [run_script ((if CutterSensor.runout_pause c then "PAUSE" ^^ nl else "")
                          ^^ text ^^ nl ^^ "M400")]).
Proof.
  intros env c eventtime w. cbv zeta.
  unfold CutterSensor._runout_event_handler, CutterSensor._exec_gcode,
    CutterSensor.assign_min_event_systime, Calls.call, Calls.emit, Calls.read,
    try_except, bind, raise, modify, ret.
  destruct (CutterSensor.runout_gcode c) as [macro|],
    (CutterSensor.runout_pause c), (CutterSensor.has_pause_resume c); cbn.
  all: repeat match goal with
         | |- context [raises ?e ?n ?t ?a] => destruct (raises e n t a) eqn:?; cbn
         end.
  all: (split; [discriminate | split]).
  all: try (intros ? He; try discriminate He; repeat split; auto; fail).
  all: intros text Hr Ht; try discriminate Hr; try discriminate Ht; inversion Ht; subst.
  all: rewrite <- ?app_assoc; reflexivity.
Qed.

Lemma runout_handler_pauses_before_macro_witness :
  trace (snd (CutterSensor._runout_event_handler (Scenario.steady Scenario.idle)
                pausing_on_runout 100 Scenario.ready))
  = [send_pause_command; reactor_pause (100 + 0.5);
     run_script ("PAUSE" ^^ nl ^^ "RUNOUT" ^^ nl ^^ "M400")].
Proof.
  apply (proj2 (proj2 (runout_handler_pauses_before_macro (Scenario.steady Scenario.idle)
                         pausing_on_runout 100 Scenario.ready)) "RUNOUT");
    reflexivity.
Defined.
(** ** Pulse loops without a ceiling *)

Section CutterPulses.
Variable env : Env.
Variable c : CutterSensor.Config.
Variable u : UnloadFilament.Config.
Variable fuel : nat.
Hypothesis connected : CutterSensor.toolhead c = true.
Hypothesis speed_nonzero : Qeq_bool (CutterSensor.extrude_speed c) 0 = false.
Hypothesis nothing_raises : never_raises env.
Hypothesis clock_below_never :
  forall n h, monotonic (readings env n h) + 10 / CutterSensor.extrude_speed c < NEVER env.

Lemma cutter_fire_pulses w :
  is_cutting (cutter w) = true ->
  Klippy.armed env unextrude_to_sensor_timer w = true ->
  exists w',
    Klippy.dispatch env c u fuel (Klippy.timer unextrude_to_sensor_timer) w = Some (Ok tt, w')
    /\ is_cutting (cutter w') = true
    /\ Klippy.armed env unextrude_to_sensor_timer w' = true
    /\ count is_toolhead_move (trace w') = S (count is_toolhead_move (trace w)).
Proof.
  intros Hc Ha.
  unfold Klippy.dispatch, Klippy.timer_callback, CutterSensor.unextrude,
    CutterSensor.move_extruder_mm, Calls.call, Calls.read, try_except, when, bind,
    get, modify, ret, raise.
  rewrite Ha. cbn. rewrite Hc, connected. cbn. rewrite nothing_raises. cbn.
  rewrite speed_nonzero. cbn.
  eexists. split; [reflexivity|]. split; [exact Hc|]. split.
  - unfold Klippy.armed. cbn. apply Qltb_lt, clock_below_never.
  - count_calls.
Qed.

Lemma cutter_run_pulses k : forall w,
  is_cutting (cutter w) = true ->
  Klippy.armed env unextrude_to_sensor_timer w = true ->
  exists w',
    Klippy.run env c u fuel (repeat (Klippy.timer unextrude_to_sensor_timer) k) w
    = Some (Ok tt, w')
    /\ is_cutting (cutter w') = true
    /\ Klippy.armed env unextrude_to_sensor_timer w' = true
    /\ count is_toolhead_move (trace w') = (count is_toolhead_move (trace w) + k)%nat.
Proof.
  induction k as [|k IH]; intros w Hc Ha.
  - exists w. cbn. rewrite Nat.add_0_r. auto.
  - destruct (cutter_fire_pulses w Hc Ha) as (w1 & E1 & C1 & A1 & T1).
    destruct (IH w1 C1 A1) as (w2 & E2 & C2 & A2 & T2).
    exists w2. cbn [repeat Klippy.run]. rewrite E1.
    repeat split; auto. lia.
Qed.

End CutterPulses.

(** X6.  The pulse loop of the cutter has no ceiling: once a cut has armed
    [unextrude_to_sensor_timer], every firing retracts once more and re-arms
    the timer, for any number of firings, as long as no sensor transition
    clears [is_cutting]. *)
Theorem cutter_pulses_have_no_ceiling :
  forall env c u fuel k w,
    CutterSensor.toolhead c = true ->
    Qeq_bool (CutterSensor.extrude_speed c) 0 = false ->
    never_raises env ->
    (forall n h, monotonic (readings env n h) + 10 / CutterSensor.extrude_speed c
                 < NEVER env) ->
    is_cutting (cutter w) = true ->
    Klippy.armed env unextrude_to_sensor_timer w = true ->
    exists w',
      Klippy.run env c u fuel (repeat (Klippy.timer unextrude_to_sensor_timer) k) w
      = Some (Ok tt, w')
      /\ is_cutting (cutter w') = true
      /\ Klippy.armed env unextrude_to_sensor_timer w' = true
      /\ count is_toolhead_move (trace w') = (count is_toolhead_move (trace w) + k)%nat.
Proof.
  intros env c u fuel k w H1 H2 H3 H4. now apply cutter_run_pulses.
Qed.

Lemma cutter_pulses_have_no_ceiling_witness :
  let w := with_timers (set_waketime unextrude_to_sensor_timer 0 Scenario.all_never)
             (Scenario.cutting Scenario.ready) in
  exists w',
    Klippy.run (Scenario.steady Scenario.idle) Scenario.cutter_sensor
      (Scenario.unload_filament true None false) 0
      (repeat (Klippy.timer unextrude_to_sensor_timer) 3) w
    = Some (Ok tt, w')
    /\ is_cutting (cutter w') = true
    /\ Klippy.armed (Scenario.steady Scenario.idle) unextrude_to_sensor_timer w' = true
    /\ count is_toolhead_move (trace w') = (count is_toolhead_move (trace w) + 3)%nat.
Proof.
  apply (cutter_pulses_have_no_ceiling (Scenario.steady Scenario.idle)
           Scenario.cutter_sensor (Scenario.unload_filament true None false) 0 3).
  - reflexivity.
  - reflexivity.
  - intros n tr a. reflexivity.
  - intros n h. vm_compute. reflexivity.
  - reflexivity.
  - reflexivity.
Defined.

Section UnloadPulses.
Variable env : Env.
Variable c : CutterSensor.Config.
Variable u : UnloadFilament.Config.
Variable fuel : nat.
Hypothesis no_budget : UnloadFilament.timeout u = None.
Hypothesis connected : UnloadFilament.toolhead u = true.
Hypothesis speed_nonzero : Qeq_bool (UnloadFilament.unload_speed u) 0 = false.
Hypothesis nothing_raises : never_raises env.
Hypothesis clock_below_never :
  forall n h, monotonic (readings env n h) + 10 / UnloadFilament.unload_speed u < NEVER env.

Lemma unload_fire_pulses w :
  unload_started (unload w) = Some true ->
  Klippy.armed env unextrude_timer w = true ->
  exists w',
    Klippy.dispatch env c u fuel (Klippy.timer unextrude_timer) w = Some (Ok tt, w')
    /\ unload w' = unload w
    /\ callbacks w' = callbacks w
    /\ Klippy.armed env unextrude_timer w' = true
    /\ pulses (trace w') = S (pulses (trace w))
    /\ count is_unload_end (trace w') = count is_unload_end (trace w).
Proof.
  intros Hs Ha.
  unfold Klippy.dispatch, Klippy.timer_callback, Klippy.unextrude,
    UnloadFilament.unextrude, UnloadFilament.move_extruder_mm,
    UnloadFilament.get_unload_started, Calls.emit, Calls.call, Calls.read,
    try_except, when, bind, get, modify, ret, raise.
  rewrite Ha. cbn. rewrite Hs, no_budget. cbn. rewrite connected. cbn.
  rewrite !nothing_raises. cbn. rewrite speed_nonzero. cbn.
  eexists. split; [reflexivity|]. repeat split.
  - unfold Klippy.armed. cbn. apply Qltb_lt, clock_below_never.
  - unfold pulses. fold (count is_manual_move). count_calls.
  - count_calls.
Qed.

Lemma unload_run_pulses k : forall w,
  unload_started (unload w) = Some true ->
  Klippy.armed env unextrude_timer w = true ->
  exists w',
    Klippy.run env c u fuel (repeat (Klippy.timer unextrude_timer) k) w = Some (Ok tt, w')
    /\ unload w' = unload w
    /\ callbacks w' = callbacks w
    /\ Klippy.armed env unextrude_timer w' = true
    /\ pulses (trace w') = (pulses (trace w) + k)%nat
    /\ count is_unload_end (trace w') = count is_unload_end (trace w).
Proof.
  induction k as [|k IH]; intros w Hs Ha.
  - exists w. cbn. rewrite Nat.add_0_r. auto 10.
  - destruct (unload_fire_pulses w Hs Ha) as (w1 & E1 & U1 & B1 & A1 & P1 & N1).
    destruct (IH w1 ltac:(congruence) A1) as (w2 & E2 & U2 & B2 & A2 & P2 & N2).
    exists w2. cbn [repeat Klippy.run]. rewrite E1.
    repeat split; try congruence. lia.
Qed.

End UnloadPulses.

(** X7.  Without a [timeout] the pulse loop of the unload never ends by
    itself: any number of firings of [unextrude_timer] retract once each and
    re-arm the timer; [unload_started] stays set, [unload_end] is neither
    run nor scheduled and no end notification is sent. *)
Theorem unload_pulses_without_timeout_never_end :
  forall env c u fuel k w,
    UnloadFilament.timeout u = None ->
    UnloadFilament.toolhead u = true ->
    Qeq_bool (UnloadFilament.unload_speed u) 0 = false ->
    never_raises env ->
    (forall n h, monotonic (readings env n h) + 10 / UnloadFilament.unload_speed u
                 < NEVER env) ->
    unload_started (unload w) = Some true ->
    Klippy.armed env unextrude_timer w = true ->
    exists w',
      Klippy.run env c u fuel (repeat (Klippy.timer unextrude_timer) k) w = Some (Ok tt, w')
      /\ unload w' = unload w
      /\ callbacks w' = callbacks w
      /\ Klippy.armed env unextrude_timer w' = true
      /\ pulses (trace w') = (pulses (trace w) + k)%nat
      /\ count is_unload_end (trace w') = count is_unload_end (trace w).
Proof.
  intros env c u fuel k w H1 H2 H3 H4 H5. now apply unload_run_pulses.
Qed.

Lemma unload_pulses_without_timeout_never_end_witness :
  let w := with_timers (set_waketime unextrude_timer 0 Scenario.all_never)
             (Scenario.unloading Scenario.ready) in
  exists w',
    Klippy.run (Scenario.steady Scenario.idle) Scenario.cutter_sensor
      (Scenario.unload_filament true None false) 0
      (repeat (Klippy.timer unextrude_timer) 4) w
    = Some (Ok tt, w')
    /\ unload w' = unload w
    /\ callbacks w' = callbacks w
    /\ Klippy.armed (Scenario.steady Scenario.idle) unextrude_timer w' = true
    /\ pulses (trace w') = (pulses (trace w) + 4)%nat
    /\ count is_unload_end (trace w') = count is_unload_end (trace w).
Proof.
  apply (unload_pulses_without_timeout_never_end (Scenario.steady Scenario.idle)
           Scenario.cutter_sensor (Scenario.unload_filament true None false) 0 4).
  - reflexivity.
  - reflexivity.
  - reflexivity.
  - intros n tr a. reflexivity.
  - intros n h. vm_compute. reflexivity.
  - reflexivity.
  - reflexivity.
Defined.
(** ** The verification timers of the unload *)

Ltac unfold_unload_end :=
  unfold Klippy.unload_end, UnloadFilament.unload_end, UnloadFilament.restore_state,
    UnloadFilament.heat_and_wait, UnloadFilament.on_toolhead,
    UnloadFilament.get_unload_started, UnloadFilament.assign_unload_started,
    Calls.emit, Calls.call, when, bind, get, modify, ret, raise.

(** With the guard set, [unload_end] clears it and announces the end once,
    however the clean-up after that goes; timers and callbacks are not
    touched. *)
Lemma unload_end_when_started env u w :
  unload_started (unload w) = Some true ->
  let w' := snd (UnloadFilament.unload_end env u w) in
  unload w' = set_unload_started (Some false) (unload w)
  /\ cutter w' = cutter w
  /\ timers w' = timers w
  /\ callbacks w' = callbacks w
  /\ epoch w' = epoch w
  /\ count is_unload_end (trace w') = S (count is_unload_end (trace w))
  /\ count is_unload_start (trace w') = count is_unload_start (trace w).
Proof.
  intros Hs. cbv zeta. unfold_unload_end. rewrite Hs. cbn.
  split_paths; (repeat split; [reflexivity .. | count_calls | count_calls]).
Qed.

(** X8.  The flow-sensor poll has no effect: whatever the sensor reads, a
    firing of [verify_flow_sensor_timer] returns normally, makes no call,
    schedules nothing and changes no attribute and no other timer; it
    never ends the unload nor stops the pulses. *)
Theorem flow_verification_has_no_effect :
  forall env c u fuel w,
    Klippy.armed env verify_flow_sensor_timer w = true ->
    exists w',
      Klippy.dispatch env c u fuel (Klippy.timer verify_flow_sensor_timer) w
      = Some (Ok tt, w')
      /\ cutter w' = cutter w
      /\ unload w' = unload w
      /\ callbacks w' = callbacks w
      /\ trace w' = trace w
      /\ (forall t, t <> verify_flow_sensor_timer ->
                    waketime (timers w') t = waketime (timers w) t).
Proof.
  intros env c u fuel w Ha.
  unfold Klippy.dispatch, Klippy.timer_callback, UnloadFilament.verify_flow_sensor_state,
    UnloadFilament.get_unload_started, Calls.read, bind, get, ret.
  rewrite Ha. cbn.
  destruct (truthy (unload_started (unload w))); cbn;
    [destruct (UnloadFilament.filament_flow_sensor_object u); cbn;
     [destruct (flow_filament_detected _)|] |];
    (eexists; split; [reflexivity|]; repeat split;
     intros [] Ht; try reflexivity; contradiction).
Qed.

Lemma flow_verification_has_no_effect_witness :
  let w := with_timers (set_waketime verify_flow_sensor_timer 0 Scenario.all_never)
             (Scenario.unloading Scenario.ready) in
  exists w',
    Klippy.dispatch (Scenario.steady filament_gone) Scenario.cutter_sensor
      idex_unload 0 (Klippy.timer verify_flow_sensor_timer) w
    = Some (Ok tt, w')
    /\ cutter w' = cutter w
    /\ unload w' = unload w
    /\ callbacks w' = callbacks w
    /\ trace w' = trace w
    /\ (forall t, t <> verify_flow_sensor_timer ->
                  waketime (timers w') t = waketime (timers w) t).
Proof.
  apply (flow_verification_has_no_effect (Scenario.steady filament_gone)
           Scenario.cutter_sensor idex_unload 0).
  reflexivity.
Defined.

(** X9.  The switch-sensor poll ends an unload in two dispatches.  When it
    fires during an unload and the sensor reports the filament gone, it
    parks the pulse timer and itself and schedules [unload_end]; the
    callback that runs next clears [unload_started] and sends the end
    notification once, whether or not the clean-up after it fails. *)
Theorem switch_verification_ends_unload :
  forall env c u fuel w,
    UnloadFilament.filament_switch_sensor_object u = true ->
    unload_started (unload w) = Some true ->
    Klippy.armed env verify_switch_sensor_timer w = true ->
    callbacks w = [] ->
    switch_filament_detected (readings env (S (epoch w)) (trace w)) = false ->
    exists r w',
      Klippy.run env c u fuel
        [Klippy.timer verify_switch_sensor_timer; Klippy.callback] w = Some (r, w')
      /\ unload_started (unload w') = Some false
      /\ Klippy.armed env unextrude_timer w' = false
      /\ Klippy.armed env verify_switch_sensor_timer w' = false
      /\ callbacks w' = []
      /\ count is_unload_end (trace w') = S (count is_unload_end (trace w)).
Proof.
  intros env c u fuel w Ho Hs Ha Hc Hd.
  cbn [Klippy.run].
  unfold Klippy.dispatch at 1. rewrite Ha. cbv zeta.
  unfold Klippy.timer_callback, UnloadFilament.verify_switch_sensor_state,
    UnloadFilament.get_unload_started, Calls.reactor_update_timer,
    Calls.reactor_register_callback, Calls.read, bind, get, modify, ret.
  cbn. rewrite Hs, Ho. cbn. rewrite Hd.
  unfold Klippy.dispatch, Klippy.run_callback, Klippy.unload_end.
  cbn -[UnloadFilament.unload_end Qltb]. rewrite Hc.
  cbn -[UnloadFilament.unload_end Qltb]. unfold bind at 1.
  match goal with
  | |- context [UnloadFilament.unload_end env u ?w0] =>
      pose proof (unload_end_when_started env u w0 Hs) as H;
      cbv zeta in H;
      destruct (UnloadFilament.unload_end env u w0) as [[b | e |] w1]
  end;
    cbn [snd] in H; destruct H as (Hu & _ & Ht & Hb & _ & He & _);
    (do 2 eexists; split; [reflexivity|]);
    unfold Klippy.armed; rewrite Hu, Ht, Hb, He; cbn;
    rewrite !Qltb_irrefl; (repeat split; try reflexivity; count_calls).
Qed.

Lemma switch_verification_ends_unload_witness :
  let w := with_timers (set_waketime verify_switch_sensor_timer 0 Scenario.all_never)
             (Scenario.unloading Scenario.ready) in
  exists r w',
    Klippy.run (Scenario.steady filament_gone) Scenario.cutter_sensor
      (Scenario.unload_filament false None true) 0
      [Klippy.timer verify_switch_sensor_timer; Klippy.callback] w = Some (r, w')
    /\ unload_started (unload w') = Some false
    /\ Klippy.armed (Scenario.steady filament_gone) unextrude_timer w' = false
    /\ Klippy.armed (Scenario.steady filament_gone) verify_switch_sensor_timer w' = false
    /\ callbacks w' = []
    /\ count is_unload_end (trace w') = S (count is_unload_end (trace w)).
Proof.
  apply (switch_verification_ends_unload (Scenario.steady filament_gone)
           Scenario.cutter_sensor (Scenario.unload_filament false None true) 0);
    reflexivity.
Defined.
(** ** Start-up *)

(** X10.  The sensor is deaf until klippy is ready.  On the freshly
    constructed objects the deadline is [NEVER], so any burst of
    transitions is only recorded.  [handle_ready] moves the deadline to two
    seconds after the clock before it looks up its three collaborators, so
    it does so even when a lookup raises; it makes no call, and a
    transition that arrives before those two seconds are over is again only
    recorded. *)
Theorem sensor_is_deaf_until_ready :
  forall env c u fuel,
    (forall n tr, monotonic (readings env n tr) < NEVER env) ->
    (forall states,
        Klippy.run env c u fuel (map Klippy.button states) (Klippy.constructed env)
        = Some (Ok tt, record_level (last states false) (length states)
                         (Klippy.constructed env)))
    /\ (forall w,
          let res := CutterSensor.handle_ready env c w in
          snd res = with_cutter
                      (set_min_event_systime
                         (monotonic (readings env (epoch w) (trace w)) + 2.0) (cutter w)) w
          /\ (fst res = Ok tt <->
              CutterSensor.custom_boundary_object c = true
              /\ CutterSensor.load_filament_object c = true
              /\ CutterSensor.unload_filament_object c = true)
          /\ (forall state n,
                state <> filament_present (cutter w) ->
                monotonic (readings env n (trace w))
                < monotonic (readings env (epoch w) (trace w)) + 2.0 ->
                Klippy.cutter_sensor_callback env c u state (with_epoch n (snd res))
                = (Ok tt, with_cutter (set_filament_present state (cutter (snd res)))
                            (with_epoch n (snd res))))).
Proof.
  intros env c u fuel Hclock. split.
  - intros states.
    apply (burst_in_quiet_period env c u fuel states (Klippy.constructed env)).
    intros k _. apply Hclock.
  - intros w. cbv zeta.
    assert (E : snd (CutterSensor.handle_ready env c w)
                = with_cutter
                    (set_min_event_systime
                       (monotonic (readings env (epoch w) (trace w)) + 2.0) (cutter w)) w).
    { unfold CutterSensor.handle_ready, CutterSensor.assign_min_event_systime,
        Calls.read, bind, modify, ret, raise.
      destruct (CutterSensor.custom_boundary_object c),
        (CutterSensor.load_filament_object c),
        (CutterSensor.unload_filament_object c); reflexivity. }
    split; [exact E|]. split.
    + unfold CutterSensor.handle_ready, CutterSensor.assign_min_event_systime,
        Calls.read, bind, modify, ret, raise.
      destruct (CutterSensor.custom_boundary_object c),
        (CutterSensor.load_filament_object c),
        (CutterSensor.unload_filament_object c); cbn;
        (split; [intros H; try discriminate H; auto | intros (H1 & H2 & H3);
                 try discriminate; reflexivity]).
    + intros state n Hne Hq. rewrite E.
      rewrite callback_in_quiet_period; [reflexivity | cbn; assumption ..].
Qed.

Lemma sensor_is_deaf_until_ready_witness :
  Klippy.run (Scenario.steady Scenario.idle) Scenario.cutter_sensor
    (Scenario.unload_filament true None false) 0
    (map Klippy.button [true; false; true])
    (Klippy.constructed (Scenario.steady Scenario.idle))
  = Some (Ok tt, record_level true 3 (Klippy.constructed (Scenario.steady Scenario.idle))).
Proof.
  apply (proj1 (sensor_is_deaf_until_ready (Scenario.steady Scenario.idle)
                  Scenario.cutter_sensor (Scenario.unload_filament true None false) 0
                  ltac:(intros n tr; vm_compute; reflexivity))
           [true; false; true]).
Defined.
(** ** Homing before a cut *)

(** X11.  The two homing tests of a cut disagree on upper case.
    [home_needed] lower-cases the homed axes before it looks for xyz, [cut]
    does not.  On a printer that reports its axes with an upper-case letter
    [home_needed] finds it homed and does not home, and [cut] then stops
    with the request to home: no motion, heater or timer call is made, and
    [is_cutting] is left set. *)
Theorem cut_homing_tests_disagree_on_case :
  forall env c fuel return_last_pos off_heaters temp axes w,
    CutterSensor.toolhead c = true ->
    is_cutting (cutter w) = false ->
    (forall n tr, homed_axes (readings env n tr) = axes) ->
    (forall n tr, raises env n tr wait_moves = None) ->
    contains "xyz" (lower axes) = true ->
    contains "xyz" axes = false ->
    Klippy.cut env c fuel return_last_pos off_heaters temp w
    = (Ok tt,
       log (respond_info "[CUTTER] Printer needs to be homed for filament cutting.")
         (log wait_moves
            (log (respond_info "Printer already homed.")
               (with_cutter (set_is_cutting true (cutter w)) w)))).
Proof.
  intros env c fuel return_last_pos off_heaters temp axes w Ht Hc Hax Hw Hl Hu.
  unfold Klippy.cut, CutterSensor.cut, CutterSensor.home_needed,
    CutterSensor.on_toolhead, CutterSensor.assign_is_cutting.
  unfold bind at 1. unfold get at 1. rewrite Hc.
  unfold bind at 1. unfold modify at 1.
  unfold bind at 1. rewrite Ht. cbn [negb].
  unfold try_except, bind at 1, Calls.read at 1. rewrite Hax, Hl.
  unfold Calls.emit at 1, modify at 1.
  unfold bind at 1, Calls.call at 1. rewrite Hw.
  unfold bind at 1, Calls.read at 1. rewrite Hax, Hu. cbn [negb].
  reflexivity.
Qed.

Lemma cut_homing_tests_disagree_on_case_witness :
  Klippy.cut (Scenario.steady upper_case_axes) Scenario.cutter_sensor 0 false false 250
    Scenario.ready
  = (Ok tt,
     log (respond_info "[CUTTER] Printer needs to be homed for filament cutting.")
       (log wait_moves
          (log (respond_info "Printer already homed.")
             (with_cutter (set_is_cutting true (cutter Scenario.ready)) Scenario.ready)))).
Proof.
  apply (cut_homing_tests_disagree_on_case (Scenario.steady upper_case_axes)
           Scenario.cutter_sensor 0 false false 250 "XYZ" Scenario.ready).
  - reflexivity.
  - reflexivity.
  - intros n tr. reflexivity.
  - intros n tr. reflexivity.
  - vm_compute. reflexivity.
  - vm_compute. reflexivity.
Defined.
(** ** What holds along every schedule *)

(** A frame that every dispatch keeps is kept by a whole schedule. *)
Lemma run_keeps (R : World -> World -> Prop) `{Frame R} env c u fuel :
  (forall e w r w', Klippy.dispatch env c u fuel e w = Some (r, w') -> R w w') ->
  forall es w r w', Klippy.run env c u fuel es w = Some (r, w') -> R w w'.
Proof.
  intros Hd. induction es as [|e es IH]; intros w r w' E; cbn in E.
  - inversion E; subst. apply frame_refl.
  - destruct (Klippy.dispatch env c u fuel e w) as [[[[] | e0 |] w1]|] eqn:Ed;
      try discriminate.
    + eapply frame_trans; [eapply Hd, Ed | eapply IH, E].
    + inversion E; subst. eapply Hd, Ed.
    + inversion E; subst. eapply Hd, Ed.
Qed.

(** What one dispatch does around the method it runs only moves the
    reactor: the dispatch counter, the wake time of the timer that fired,
    the head of the callback queue.  A frame that these steps keep is kept
    by the dispatch when the method keeps it. *)
Lemma timer_dispatch_keeps (R : World -> World -> Prop) `{Frame R} env c u fuel t :
  (forall w, R w (Klippy.tick w)) ->
  (forall q w, R w (with_timers (set_waketime t q (timers w)) w)) ->
  (forall eventtime, keeps R (Klippy.timer_callback env c u t eventtime)) ->
  forall w r w', Klippy.dispatch env c u fuel (Klippy.timer t) w = Some (r, w') -> R w w'.
Proof.
  intros Htick Htimers Htimer w r w' E. cbn [Klippy.dispatch] in E.
  destruct (Klippy.armed env t w); [|discriminate].
  match type of E with
  | context [Klippy.timer_callback env c u t ?et ?w0] =>
      destruct (Klippy.timer_callback env c u t et w0) as [[next | e0 |] w1] eqn:Et;
      assert (R w w1)
        by (eapply frame_trans; [apply Htick |];
            eapply frame_trans; [apply (Htimers (NEVER env)) | eapply Htimer, Et])
  end; inversion E; subst; auto.
  eapply frame_trans; [eassumption | apply Htimers].
Qed.

Lemma event_dispatch_keeps (R : World -> World -> Prop) `{Frame R} env c u fuel :
  (forall w, R w (Klippy.tick w)) ->
  (forall w cb rest, callbacks w = cb :: rest -> R w (with_callbacks rest w)) ->
  (forall state, keeps R (Klippy.cutter_sensor_callback env c u state)) ->
  (forall t w r w',
      Klippy.dispatch env c u fuel (Klippy.timer t) w = Some (r, w') -> R w w') ->
  (forall cb eventtime, keeps R (Klippy.run_callback env c u fuel cb eventtime)) ->
  (forall gcmd, keeps R (Klippy.cmd_UNLOAD_FILAMENT env c u fuel gcmd)) ->
  (forall gcmd, keeps R (CutterSensor.cmd_CUT gcmd)) ->
  (forall gcmd, keeps R (CutterSensor.cmd_SET_FILAMENT_SENSOR gcmd)) ->
  (forall gcmd, keeps R (CutterSensor.cmd_QUERY_FILAMENT_SENSOR gcmd)) ->
  forall e w r w', Klippy.dispatch env c u fuel e w = Some (r, w') -> R w w'.
Proof.
  intros Htick Hqueue Hbutton Htimer Hcb Hunload Hcut Hset Hquery e w r w' E.
  destruct e as [state | t | | gcmd | gcmd | gcmd | gcmd];
    [| eapply Htimer, E | ..]; cbn [Klippy.dispatch] in E.
  - inversion E as [E']. eapply frame_trans; [apply Htick | eapply Hbutton, E'].
  - destruct (callbacks w) as [|cb rest] eqn:Eq; [discriminate|].
    inversion E as [E'].
    eapply frame_trans; [apply Htick |].
    eapply frame_trans; [apply (Hqueue (Klippy.tick w) cb rest Eq) | eapply Hcb, E'].
  - inversion E as [E']. eapply frame_trans; [apply Htick | eapply Hunload, E'].
  - inversion E as [E']. eapply frame_trans; [apply Htick | eapply Hcut, E'].
  - inversion E as [E']. eapply frame_trans; [apply Htick | eapply Hset, E'].
  - inversion E as [E']. eapply frame_trans; [apply Htick | eapply Hquery, E'].
Qed.

Lemma dispatch_keeps (R : World -> World -> Prop) `{Frame R} env c u fuel :
  (forall w, R w (Klippy.tick w)) ->
  (forall t q w, R w (with_timers (set_waketime t q (timers w)) w)) ->
  (forall w cb rest, callbacks w = cb :: rest -> R w (with_callbacks rest w)) ->
  (forall state, keeps R (Klippy.cutter_sensor_callback env c u state)) ->
  (forall t eventtime, keeps R (Klippy.timer_callback env c u t eventtime)) ->
  (forall cb eventtime, keeps R (Klippy.run_callback env c u fuel cb eventtime)) ->
  (forall gcmd, keeps R (Klippy.cmd_UNLOAD_FILAMENT env c u fuel gcmd)) ->
  (forall gcmd, keeps R (CutterSensor.cmd_CUT gcmd)) ->
  (forall gcmd, keeps R (CutterSensor.cmd_SET_FILAMENT_SENSOR gcmd)) ->
  (forall gcmd, keeps R (CutterSensor.cmd_QUERY_FILAMENT_SENSOR gcmd)) ->
  forall e w r w', Klippy.dispatch env c u fuel e w = Some (r, w') -> R w w'.
Proof.
  intros Htick Htimers Hqueue Hbutton Htimer Hcb Hunload Hcut Hset Hquery.
  apply event_dispatch_keeps; auto.
  intros t. apply timer_dispatch_keeps; auto.
Qed.

Ltac unfold_all_methods :=
  unfold Klippy.cutter_sensor_callback, Klippy.timer_callback, Klippy.run_callback,
    Klippy.unextrude, Klippy.unload_end,
    CutterSensor.cutter_sensor_callback, CutterSensor.printer_send_event,
    CutterSensor.unextrude, CutterSensor._insert_event_handler,
    CutterSensor._runout_event_handler, CutterSensor._exec_gcode,
    CutterSensor.cmd_CUT, CutterSensor.cmd_SET_FILAMENT_SENSOR,
    CutterSensor.cmd_QUERY_FILAMENT_SENSOR, CutterSensor.assign_min_event_systime,
    UnloadFilament.handle_cutter_fnp, UnloadFilament.unextrude,
    UnloadFilament.verify_flow_sensor_state, UnloadFilament.verify_switch_sensor_state,
    UnloadFilament.unload_end, UnloadFilament.restore_state,
    UnloadFilament.move_extruder_mm;
  unfold_cutter_methods; unfold_unload_methods; cbv zeta.





#[local] Instance preserves_frame I : Frame (preserves I).
Proof. split; unfold preserves; auto. Qed.

(** *** The pulse timer of the cutter and its guard *)







(** *** Start and end notifications of the unload *)

#[local] Instance unload_quiet_frame : Frame unload_quiet.
Proof.
  split; unfold unload_quiet.
  - auto.
  - intros a b c (H1 & H2 & H3) (H4 & H5 & H6). repeat split; congruence.
Qed.

Lemma unload_quiet_balanced w w' : unload_quiet w w' -> preserves balanced w w'.
Proof.
  unfold unload_quiet, preserves, balanced. intros (H1 & H2 & H3) Hi.
  now rewrite H1, H2, H3.
Qed.

Ltac quiet_leaf :=
  unfold unload_quiet, count; cbn; rewrite ?filter_app, ?length_app; cbn;
  rewrite ?Nat.add_0_r; repeat split; reflexivity.

Ltac balanced_leaf := apply unload_quiet_balanced; quiet_leaf.

Lemma cut_unload_quiet env c fuel return_last_pos off_heaters temp :
  keeps unload_quiet (Klippy.cut env c fuel return_last_pos off_heaters temp).
Proof.
  assert (Hw : forall polls t e,
             keeps unload_quiet (CutterSensor.wait_for_temperature env polls t e))
    by (apply wait_for_temperature_keeps; [typeclasses eauto | ..]; intros; quiet_leaf).
  unfold_cutter_methods.
  keeps_with quiet_leaf.
  all: apply Hw.
Qed.

Lemma unload_end_balanced env u :
  keeps (preserves balanced) (UnloadFilament.unload_end env u).
Proof.
  intros w r w' E Hi.
  destruct (unload_started (unload w)) as [[|]|] eqn:Hs.
  - pose proof (unload_end_when_started env u w Hs) as H. cbv zeta in H.
    rewrite E in H. cbn [snd] in H. destruct H as (Hu & _ & _ & _ & _ & He & Hst).
    unfold balanced in *. rewrite Hu, He, Hst, Hi, Hs. cbn. lia.
  - unfold UnloadFilament.unload_end, UnloadFilament.get_unload_started, bind, get, ret in E.
    rewrite Hs in E. cbn in E. inversion E; subst. exact Hi.
  - unfold UnloadFilament.unload_end, UnloadFilament.get_unload_started, bind, get, ret in E.
    rewrite Hs in E. cbn in E. inversion E; subst. exact Hi.
Qed.

Lemma cmd_UNLOAD_FILAMENT_balanced env c u fuel gcmd :
  keeps (preserves balanced) (Klippy.cmd_UNLOAD_FILAMENT env c u fuel gcmd).
Proof.
  intros w r w' H.
  assert (Hcut := cut_unload_quiet env c fuel).
  assert (K : forall A (m : M A) a b r,
             keeps unload_quiet m -> m a = (r, b) -> unload_quiet a b)
    by (intros A m x y r0 Hm; apply Hm).
  unfold Klippy.cmd_UNLOAD_FILAMENT, UnloadFilament.cmd_UNLOAD_FILAMENT in H.
  revert Hcut H; generalize (Klippy.cut env c fuel); intros cutter_cut Hcut H.
  apply bind_cases in H. destruct H as [(temp & w0 & E0 & H) | (r0 & E & _)].
  2: { destruct (TEMPERATURE gcmd); inversion E; apply frame_refl. }
  destruct (TEMPERATURE gcmd); inversion E0; subst; clear E0.
  destruct (UnloadFilament.toolhead u) eqn:Hc; cbn [negb] in H.
  2: { inversion H; subst. apply frame_refl. }
  apply try_except_reraise_cases in H. destruct H as (r0 & H & _).
  apply bind_cases in H. destruct H as [(s & w1 & E0 & H) | (r1 & E & Hr1)].
  2: { inversion E; subst. discriminate Hr1. }
  inversion E0; subst s w1; clear E0.
  destruct (truthy (unload_started (unload w0))) eqn:Hs.
  { apply unload_quiet_balanced. eapply K; [| exact H].
    keeps_with quiet_leaf. }
  assert (Step : forall A (m : M A) a b r,
             keeps unload_quiet m -> m a = (r, b) ->
             truthy (unload_started (unload a)) = false ->
             balanced a -> balanced b /\ truthy (unload_started (unload b)) = false).
  { intros A m x y r1 Hm Em Hx Hi.
    pose proof (K A m x y r1 Hm Em) as Q. split.
    - now apply (unload_quiet_balanced x y).
    - destruct Q as (Q & _). now rewrite Q. }
  intros Hi.
  do 4 (apply bind_cases in H;
        let a := fresh "a" in
        let w := fresh "w" in
        let E := fresh "E" in
        let r := fresh "r" in
        let F := fresh "F" in
        destruct H as [(a & w & E & H) | (r & E & F)];
        [ eapply Step in E; [destruct E as [Hi' Hs']; clear Hi Hs; rename Hi' into Hi;
                             rename Hs' into Hs
                            | unfold_unload_methods; keeps_with quiet_leaf
                            | exact Hs | exact Hi]
        | eapply Step in E; [exact (proj1 E)
                            | unfold_unload_methods; keeps_with quiet_leaf
                            | exact Hs | exact Hi] ]).
  apply bind_cases in H. destruct H as [(x5 & w5 & E5 & H) | (r5 & E5 & F5)].
  2: { inversion E5; subst. discriminate F5. }
  apply bind_cases in H. destruct H as [(x6 & w6 & E6 & H) | (r6 & E6 & F6)].
  2: { inversion E6; subst. discriminate F6. }
  assert (Hi6 : balanced w6).
  { unfold UnloadFilament.assign_unload_started, modify in E5. inversion E5; subst.
    unfold Calls.emit, modify in E6. inversion E6; subst.
    unfold balanced in *. cbn. unfold count in *.
    rewrite !filter_app, !length_app. cbn. rewrite Hs in Hi. lia. }
  revert Hi6. apply unload_quiet_balanced. eapply K; [| exact H].
  unfold_unload_methods. keeps_with quiet_leaf.
Qed.

Lemma dispatch_balanced env c u fuel e w r w' :
  Klippy.dispatch env c u fuel e w = Some (r, w') -> preserves balanced w w'.
Proof.
  assert (Hue := unload_end_balanced env u).
  apply dispatch_keeps; try typeclasses eauto.
  - intros w0. balanced_leaf.
  - intros t q w0. balanced_leaf.
  - intros w0 cb rest _. balanced_leaf.
  - intros state. unfold_all_methods. keeps_with balanced_leaf.
  - intros [] eventtime.
    + unfold_all_methods. keeps_with balanced_leaf.
    + unfold Klippy.timer_callback, Klippy.unextrude, UnloadFilament.unextrude,
        UnloadFilament.move_extruder_mm, UnloadFilament.get_unload_started,
        UnloadFilament.assign_unextrude_count, Calls.reactor_update_timer.
      revert Hue; generalize (UnloadFilament.unload_end env u); intros ue Hue.
      keeps_with balanced_leaf. all: exact Hue.
    + unfold_all_methods. keeps_with balanced_leaf.
    + unfold_all_methods. keeps_with balanced_leaf.
  - intros [temp rl oh | | |] eventtime; cbn [Klippy.run_callback].
    + intros w0 r0 w0' E. apply unload_quiet_balanced.
      eapply cut_unload_quiet, E.
    + unfold Klippy.unload_end. apply keeps_bind; [exact Hue | intro; apply keeps_ret].
    + unfold_all_methods. keeps_with balanced_leaf.
    + unfold_all_methods. keeps_with balanced_leaf.
  - apply cmd_UNLOAD_FILAMENT_balanced.
  - intros gcmd. unfold_all_methods. keeps_with balanced_leaf.
  - intros gcmd. unfold_all_methods. keeps_with balanced_leaf.
  - intros gcmd. unfold_all_methods. keeps_with balanced_leaf.
Qed.

(** X14.  Start and end notifications of the unload stay paired.  Along
    any schedule that starts from the constructed objects, the number of
    "unload_filament:start" events sent equals the number of
    "unload_filament:end" events sent, plus one exactly while
    [unload_started] is set: no start is announced without the guard being
    taken, no end without it being released, whatever fails in between. *)
Theorem unload_notifications_stay_paired :
  forall env c u fuel es r w',
    Klippy.run env c u fuel es (Klippy.constructed env) = Some (r, w') ->
    count is_unload_start (trace w')
    = (count is_unload_end (trace w')
       + if truthy (unload_started (unload w')) then 1 else 0)%nat.
Proof.
  intros env c u fuel es r w' E.
  apply (run_keeps (preserves balanced) env c u fuel
           (dispatch_balanced env c u fuel) es _ r w' E).
  reflexivity.
Qed.

Lemma unload_notifications_stay_paired_witness :
  exists r w',
    Klippy.run (Scenario.steady filament_gone) Scenario.cutter_sensor
      (Scenario.unload_filament false (Some 1%Z) true) 0
      [Klippy.UNLOAD_FILAMENT Scenario.plain; Klippy.timer unextrude_timer;
       Klippy.timer verify_switch_sensor_timer; Klippy.callback;
       Klippy.UNLOAD_FILAMENT Scenario.plain]
      (Klippy.constructed (Scenario.steady filament_gone)) = Some (r, w')
    /\ count is_unload_start (trace w')
       = (count is_unload_end (trace w')
          + if truthy (unload_started (unload w')) then 1 else 0)%nat.
Proof.
  destruct (Klippy.run (Scenario.steady filament_gone) Scenario.cutter_sensor
              (Scenario.unload_filament false (Some 1%Z) true) 0
              [Klippy.UNLOAD_FILAMENT Scenario.plain; Klippy.timer unextrude_timer;
               Klippy.timer verify_switch_sensor_timer; Klippy.callback;
               Klippy.UNLOAD_FILAMENT Scenario.plain]
              (Klippy.constructed (Scenario.steady filament_gone)))
    as [[r w']|] eqn:E; [| vm_compute in E; discriminate E].
  exists r, w'. split; [reflexivity|].
  exact (unload_notifications_stay_paired _ _ _ _ _ _ _ E).
Defined.
(** ** How failures of the unload surface *)

Lemma try_except_wraps {A} (m : M A) (f : Exn -> Exn) w e w' :
  try_except m (fun cause => raise (f cause)) w = (Raise e, w') ->
  exists cause, e = f cause.
Proof.
  unfold try_except, raise. destruct (m w) as [[x | cause |] w1]; intros E;
    inversion E; eauto.
Qed.

Lemma bind_raise {A B} (m : M A) (k : A -> M B) w e w' :
  bind m k w = (Raise e, w') ->
  (exists a w1, m w = (Ok a, w1) /\ k a w1 = (Raise e, w'))
  \/ m w = (Raise e, w').
Proof.
  unfold bind. destruct (m w) as [[a | e0 |] w1]; intros E.
  - left. eauto.
  - right. inversion E; subst. reflexivity.
  - discriminate E.
Qed.

(** X15.  The error classes of the unload.  The three handlers of
    [cmd_UNLOAD_FILAMENT], [home_needed] and [move_extruder_mm] build their
    [UnloadFilamentError] without the required [errors] argument, so
    whatever failed, what they raise is the TypeError of that constructor
    call and the cause is lost; only a rejected TEMPERATURE, read outside
    the handler, keeps its own error.  [unextrude] passes [errors], so what
    the pulse timer raises is an [UnloadFilamentError] that quotes its
    cause, the TypeError of [move_extruder_mm] included. *)
Theorem unload_errors_lose_their_cause :
  forall env c u fuel,
    (forall gcmd w e w',
        Klippy.cmd_UNLOAD_FILAMENT env c u fuel gcmd w = (Raise e, w') ->
        TEMPERATURE gcmd = inr e
        \/ e = TypeError "__init__() missing 1 required positional argument: 'errors'")
    /\ (forall w e w',
        UnloadFilament.home_needed env u w = (Raise e, w') ->
        e = TypeError "__init__() missing 1 required positional argument: 'errors'")
    /\ (forall distance speed wait w e w',
        UnloadFilament.move_extruder_mm env u distance speed wait w = (Raise e, w') ->
        e = TypeError "__init__() missing 1 required positional argument: 'errors'")
    /\ (forall eventtime w e w',
        Klippy.unextrude env u eventtime w = (Raise e, w') ->
        exists cause,
          e = UnloadFilamentError
                ("[UNLOAD FILAMENT] Error while unloading: " ^^ exn_str cause)).
Proof.
  intros env c u fuel. split; [|split; [|split]].
  - intros gcmd w e w' H.
    unfold Klippy.cmd_UNLOAD_FILAMENT, UnloadFilament.cmd_UNLOAD_FILAMENT in H.
    apply bind_raise in H. destruct H as [(temp & w0 & E0 & H) | E].
    + right. destruct (UnloadFilament.toolhead u); cbn [negb] in H;
        [| discriminate H].
      apply (try_except_wraps _ (fun _ => UnloadFilament.UnloadFilamentError_missing_errors))
        in H.
      destruct H as [_ ->]. reflexivity.
    + left. destruct (TEMPERATURE gcmd) as [t | e0]; inversion E; reflexivity.
  - intros w e w' H. unfold UnloadFilament.home_needed in H.
    destruct (UnloadFilament.toolhead u); cbn [negb] in H; [| discriminate H].
    apply (try_except_wraps _ (fun _ => UnloadFilament.UnloadFilamentError_missing_errors))
      in H.
    destruct H as [_ ->]. reflexivity.
  - intros distance speed wait w e w' H. unfold UnloadFilament.move_extruder_mm in H.
    destruct (UnloadFilament.toolhead u); cbn [negb] in H; [| discriminate H].
    apply bind_raise in H. destruct H as [(x & w0 & E0 & H) | E];
      [discriminate H |].
    apply (try_except_wraps _ (fun _ => UnloadFilament.UnloadFilamentError_missing_errors))
      in E.
    destruct E as [_ ->]. reflexivity.
  - intros eventtime w e w' H.
    unfold Klippy.unextrude, UnloadFilament.unextrude in H.
    apply bind_raise in H. destruct H as [(s & w0 & E0 & H) | E].
    + destruct (negb s); [discriminate H |].
      apply (try_except_wraps _
               (fun cause => UnloadFilamentError
                               ("[UNLOAD FILAMENT] Error while unloading: "
                                ^^ exn_str cause))) in H.
      exact H.
    + unfold UnloadFilament.get_unload_started, bind, get, ret in E.
      discriminate E.
Qed.

Lemma unload_errors_lose_their_cause_witness :
  exists e w',
    Klippy.cmd_UNLOAD_FILAMENT heating_fails Scenario.cutter_sensor
      (Scenario.unload_filament false None false) 0 Scenario.plain Scenario.ready
    = (Raise e, w')
    /\ (TEMPERATURE Scenario.plain = inr e
        \/ e = TypeError "__init__() missing 1 required positional argument: 'errors'").
Proof.
  destruct (Klippy.cmd_UNLOAD_FILAMENT heating_fails Scenario.cutter_sensor
              (Scenario.unload_filament false None false) 0 Scenario.plain Scenario.ready)
    as [[x | e |] w'] eqn:E;
    [vm_compute in E; discriminate E | | vm_compute in E; discriminate E].
  exists e, w'. split; [reflexivity|].
  exact (proj1 (unload_errors_lose_their_cause heating_fails Scenario.cutter_sensor
                  (Scenario.unload_filament false None false) 0)
           Scenario.plain Scenario.ready e w' E).
Defined.
(** X16.  The error class of the cutter.  Every helper of the cut wraps
    what fails inside it: [home_needed], [heat_and_wait], [cut_move],
    [move_to_cutter_pos], [move_to_bucket], [move_back], [move_extruder_mm]
    and the timer callback [unextrude] raise nothing but
    [CutterSensorError], and none of them but [heat_and_wait] can be left
    waiting. *)
Theorem cutter_helpers_raise_cutter_errors :
  forall env c fuel w,
    let only_cutter_error {A} (res : Result A * World) :=
      match fst res with
      | Ok _ => True
      | Raise e => exists msg, e = CutterSensorError msg
      | Polling => False
      end in
    only_cutter_error (CutterSensor.home_needed env c w)
    /\ only_cutter_error (CutterSensor.cut_move env c w)
    /\ only_cutter_error (CutterSensor.move_to_cutter_pos env c w)
    /\ (forall split, only_cutter_error (CutterSensor.move_to_bucket env c split w))
    /\ only_cutter_error (CutterSensor.move_back env c w)
    /\ (forall distance speed wait,
          only_cutter_error (CutterSensor.move_extruder_mm env c distance speed wait w))
    /\ (forall eventtime, only_cutter_error (CutterSensor.unextrude env c eventtime w))
    /\ (forall temp wait,
          match fst (CutterSensor.heat_and_wait env c fuel temp wait w) with
          | Raise e => exists msg, e = CutterSensorError msg
          | _ => True
          end).
Proof.
  intros env c fuel w. cbv zeta.
  assert (W : forall A (m : M A) (f : Exn -> string) w0,
             (forall r w1, m w0 = (r, w1) -> r <> Polling) ->
             match fst (try_except m (fun e => raise (CutterSensorError (f e))) w0) with
             | Ok _ => True
             | Raise e => exists msg, e = CutterSensorError msg
             | Polling => False
             end).
  { intros A m f w0 Hp. unfold try_except, raise.
    destruct (m w0) as [[x | e |] w1] eqn:E; cbn; eauto.
    exact (Hp _ _ eq_refl eq_refl). }
  repeat split; intros;
    unfold CutterSensor.home_needed, CutterSensor.cut_move, CutterSensor.move_to_cutter_pos,
      CutterSensor.move_to_bucket, CutterSensor.move_back, CutterSensor.move_extruder_mm,
      CutterSensor.unextrude, CutterSensor.heat_and_wait.
  all: try (unfold bind at 1, get at 1).
  all: repeat match goal with
         | |- context [if negb ?b then _ else _] => destruct b; cbn [negb fst]
         end; eauto.
  all: try (apply W; intros r w1;
            unfold CutterSensor.on_toolhead, CutterSensor.move_extruder_mm, Calls.call,
              Calls.emit, Calls.read, try_except, when, bind, get, modify, ret, raise;
            split_paths; intros E; inversion E; discriminate).
  all: try (cbn; eauto; fail).
  unfold try_except, raise.
  match goal with |- match fst (match ?m ?w0 with _ => _ end) with _ => _ end =>
    destruct (m w0) as [[x | e |] w1] end; cbn; eauto.
Qed.
(** ** What a cut that returns has done *)

#[local] Instance same_on_frame {A} (f : World -> A) : Frame (same_on f).
Proof. split; unfold same_on; congruence. Qed.



(** ** The CUT command *)




(** ** The printer boundary after a cut *)

(** As [keeps_with], leaving out a branch whose test cannot succeed. *)
Ltac keeps_skipping leaf :=
  repeat first
    [ match goal with
      | |- keeps _ (when (_ && false) _) => rewrite andb_false_r; apply keeps_ret
      end
    | apply keeps_ret | apply keeps_raise | apply keeps_polling
    | apply keeps_get | apply keeps_read | apply keeps_gcmd_get
    | apply keeps_bind; [| intro]
    | apply keeps_try_except; [| intro]
    | apply keeps_when
    | apply keeps_emit; intro; leaf
    | apply keeps_call; intro; leaf
    | apply keeps_modify; intro; leaf
    | match goal with
      | |- keeps _ (if ?b then _ else _) => destruct b
      | |- keeps _ (match ?x with _ => _ end) => destruct x
      end ].

(** X19.  A cut with [return_last_pos] false, the default of [CUT] and
    the way an unload calls it, never puts the custom boundary back:
    [move_to_bucket] may lift it, but [set_custom_boundary] sits in the
    branch that moves back to the previous position. *)
Theorem cut_without_return_never_sets_boundary :
  forall env c fuel off_heaters temp w,
    exists calls,
      trace (snd (Klippy.cut env c fuel false off_heaters temp w)) = trace w ++ calls
      /\ existsb is_set_custom_boundary calls = false.
Proof.
  intros env c fuel off_heaters temp w.
  assert (K : keeps (calls_only (fun a => negb (is_set_custom_boundary a)))
                (Klippy.cut env c fuel false off_heaters temp)).
  { assert (Hw := wait_for_temperature_calls_only env
                    (fun a => negb (is_set_custom_boundary a)) eq_refl (fun q => eq_refl)).
    unfold_cutter_methods.
    keeps_skipping calls_only_leaf.
    all: apply Hw. }
  destruct (Klippy.cut env c fuel false off_heaters temp w) as [r w'] eqn:E.
  destruct (K w r w' E) as [l [El Fl]].
  exists l. split; [exact El|].
  apply (forallb_existsb_false (fun a => negb (is_set_custom_boundary a))
           is_set_custom_boundary); [|exact Fl].
  intros a. now destruct (is_set_custom_boundary a).
Qed.

(** ** Querying the sensor *)

(** X20.  [QUERY_FILAMENT_SENSOR] answers from the level the callback has
    stored, and the callback stores the level before it looks at the
    deadline: a transition that arrives inside the quiet period sends no
    notification and runs no macro, and still the next query reports
    it. *)
Theorem query_reports_quiet_period_transition :
  forall env c u fuel state gcmd w,
    state <> filament_present (cutter w) ->
    monotonic (readings env (S (epoch w)) (trace w)) < min_event_systime (cutter w) ->
    Klippy.run env c u fuel [Klippy.button state; Klippy.QUERY_FILAMENT_SENSOR gcmd] w
    = Some (Ok tt,
            log (respond_info (if state then "[CUTTER] Filament Detected"
                               else "[CUTTER] No filament detected"))
              (record_level state 2 w)).
Proof.
  intros env c u fuel state gcmd w Hne Hq.
  cbn [Klippy.run Klippy.dispatch].
  rewrite callback_in_quiet_period; [| exact Hne | exact Hq].
  unfold CutterSensor.cmd_QUERY_FILAMENT_SENSOR, bind, get, Calls.emit, modify.
  cbn. destruct state; cbn; unfold record_level, log, with_epoch, with_cutter; cbn;
    repeat f_equal; lia.
Qed.

Lemma query_reports_quiet_period_transition_witness :
  Klippy.run (Scenario.steady Scenario.idle) Scenario.cutter_sensor
    (Scenario.unload_filament false None false) 0
    [Klippy.button true; Klippy.QUERY_FILAMENT_SENSOR Scenario.plain] after_runout
  = Some (Ok tt, log (respond_info "[CUTTER] Filament Detected")
                   (record_level true 2 after_runout)).
Proof.
  apply (query_reports_quiet_period_transition (Scenario.steady Scenario.idle)
           Scenario.cutter_sensor (Scenario.unload_filament false None false) 0 true
           Scenario.plain after_runout).
  - discriminate.
  - vm_compute. reflexivity.
Defined.
(** ** An unload with a cutter and no timeout *)

(** X21.  With a cutter and no [timeout], nothing in the unload ends the
    retraction.  When the cutter sensor sees the filament leave during the
    unload, [handle_cutter_fnp] arms the pulse timer whether or not a
    [timeout] is configured; without one, every firing retracts and
    re-arms, [unload_started] stays set and no end is announced, for any
    number of firings. *)
Theorem cutter_unload_without_timeout_never_ends :
  forall env c u fuel k w,
    CutterSensor.unload_filament_object c = true ->
    UnloadFilament.cutter_object u = true ->
    UnloadFilament.timeout u = None ->
    UnloadFilament.toolhead u = true ->
    Qeq_bool (UnloadFilament.unload_speed u) 0 = false ->
    never_raises env ->
    (forall n h, monotonic (readings env n h) + 10 / UnloadFilament.unload_speed u
                 < NEVER env) ->
    NOW env < NEVER env ->
    unload_started (unload w) = Some true ->
    accepted env false (Klippy.tick w) ->
    exists w',
      Klippy.run env c u fuel
        (Klippy.button false :: repeat (Klippy.timer unextrude_timer) k) w
      = Some (Ok tt, w')
      /\ unload_started (unload w') = Some true
      /\ Klippy.armed env unextrude_timer w' = true
      /\ pulses (trace w') = (pulses (trace w) + k)%nat
      /\ count is_unload_end (trace w') = count is_unload_end (trace w).
Proof.
  intros env c u fuel k w Hobj Hcut Hto Hth Hsp Hnr Hclock Hnow Hs Ha.
  destruct (accepted_tests env false (Klippy.tick w) Ha) as [Ht Hq].
  assert (H1 : exists w1,
             Klippy.cutter_sensor_callback env c u false (Klippy.tick w) = (Ok tt, w1)
             /\ unload w1 = unload w
             /\ Klippy.armed env unextrude_timer w1 = true
             /\ pulses (trace w1) = pulses (trace w)
             /\ count is_unload_end (trace w1) = count is_unload_end (trace w)).
  { cbn in Ht, Hq. unfold_routing. cbn. rewrite Ht. cbn. rewrite Hq. cbn.
    rewrite Hobj, Hs, Hcut. cbn. rewrite orb_true_r.
    unfold Klippy.armed, pulses. fold (count is_manual_move).
    apply Qltb_lt in Hnow.
    destruct (is_cutting (cutter w)); cbn; rewrite ?Hs; cbn; rewrite !Hnr; cbn;
      (eexists; split; [reflexivity|]; cbn; repeat split;
       [exact Hnow | count_calls | count_calls]). }
  destruct H1 as (w1 & E1 & U1 & A1 & P1 & N1).
  destruct (unload_run_pulses env c u fuel Hto Hth Hsp Hnr Hclock k w1
              ltac:(rewrite U1; exact Hs) A1) as (w2 & E2 & U2 & _ & A2 & P2 & N2).
  exists w2. cbn [Klippy.run Klippy.dispatch]. rewrite E1.
  split; [exact E2|]. repeat split; congruence.
Qed.

Lemma cutter_unload_without_timeout_never_ends_witness :
  exists w',
    Klippy.run (Scenario.steady Scenario.idle) Scenario.cutter_sensor
      (Scenario.unload_filament true None false) 0
      (Klippy.button false :: repeat (Klippy.timer unextrude_timer) 5)
      (Scenario.unloading Scenario.ready)
    = Some (Ok tt, w')
    /\ unload_started (unload w') = Some true
    /\ Klippy.armed (Scenario.steady Scenario.idle) unextrude_timer w' = true
    /\ pulses (trace w') = (pulses (trace (Scenario.unloading Scenario.ready)) + 5)%nat
    /\ count is_unload_end (trace w')
       = count is_unload_end (trace (Scenario.unloading Scenario.ready)).
Proof.
  apply (cutter_unload_without_timeout_never_ends (Scenario.steady Scenario.idle)
           Scenario.cutter_sensor (Scenario.unload_filament true None false) 0 5
           (Scenario.unloading Scenario.ready)).
  - reflexivity.
  - reflexivity.
  - reflexivity.
  - reflexivity.
  - reflexivity.
  - intros n tr a. reflexivity.
  - intros n h. vm_compute. reflexivity.
  - vm_compute. reflexivity.
  - reflexivity.
  - split; [discriminate | vm_compute; discriminate].
Defined.
